(** * razzi-clock: a shallow embedding of [main.py]

    The program is a PyQt5 dashboard: a falling-characters background
    ([MatrixBackground]), an analog clock ([AnalogClock]) and a controller
    ([Dashboard]) with a three-page stacked widget, a weather fetch and a
    key file.  Each class of the source is a module below; the Python
    built-ins the source leans on (truthiness, subscripting, [str], float
    arithmetic, exceptions) come first, in module [Py]. *)

From Stdlib Require Import ZArith QArith Qround Qabs List String Ascii Bool Lia.
From Stdlib Require Import DecimalString SpecFloat.
Import ListNotations.

Local Open Scope string_scope.
Local Open Scope Z_scope.

Set Warnings "-register-all".

(* ================================================================== *)
(** * Python built-ins *)
(* ================================================================== *)
Module Py.

(** ** Floats: IEEE 754 binary64, as CPython's [float] *)

Definition prec : Z := 53.
Definition emax : Z := 1024.

Definition float_of_Z (z : Z) : spec_float := binary_normalize prec emax z 0 false.
Definition fadd : spec_float -> spec_float -> spec_float := SFadd prec emax.
Definition fmul : spec_float -> spec_float -> spec_float := SFmul prec emax.
Definition fdiv : spec_float -> spec_float -> spec_float := SFdiv prec emax.

(** [a / b] on two ints is true division, correctly rounded. *)
Definition int_truediv (a b : Z) : spec_float := fdiv (float_of_Z a) (float_of_Z b).

(** [i + x] and [i * x] for an int [i] and a float [x]: the int is
    converted first. *)
Definition int_add_float (i : Z) (x : spec_float) : spec_float := fadd (float_of_Z i) x.
Definition int_mul_float (i : Z) (x : spec_float) : spec_float := fmul (float_of_Z i) x.
Definition int_div_float (i : Z) (x : spec_float) : spec_float := fdiv (float_of_Z i) x.

(** [x > y] on floats ([False] as soon as a NaN is involved). *)
Definition fgt (x y : spec_float) : bool := SFltb y x.

(** The rational a finite float stands for. *)
Definition pow2Q (e : Z) : Q :=
  match e with
  | Z0 => 1%Q
  | Zpos p => inject_Z (2 ^ Zpos p)
  | Zneg p => (1 # (2 ^ p))%Q
  end.

Definition pow10Q (e : Z) : Q :=
  match e with
  | Z0 => 1%Q
  | Zpos p => inject_Z (10 ^ Zpos p)
  | Zneg p => (1 # (10 ^ p))%Q
  end.

Definition SF2Q (x : spec_float) : Q :=
  match x with
  | S754_finite s m e => (inject_Z (cond_Zopp s (Zpos m)) * pow2Q e)%Q
  | _ => 0%Q
  end.

Definition is_finite (x : spec_float) : bool :=
  match x with
  | S754_finite _ _ _ | S754_zero _ => true
  | _ => false
  end.

(** ** [repr] of a float

    CPython prints the shortest decimal string that reads back as the same
    binary64 number (the nearest to it among the shortest), in positional
    notation when the decimal point falls within [-4 < decpt <= 16] and in
    exponent notation otherwise. *)

(** Half-way points to the neighbouring floats, in units of [2^(e-2)]:
    a decimal reads back as [m * 2^e] when it lies between them (bounds
    included when [m] is even, ties going to even). *)
Definition lower_gap (m : positive) (e : Z) : Z :=
  if (Zpos m =? 2 ^ (prec - 1)) && (emin prec emax <? e) then 1 else 2.

Definition reads_back (m : positive) (e : Z) (v : Q) : bool :=
  let u := pow2Q (e - 2) in
  let lo := (inject_Z (4 * Zpos m - lower_gap m e) * u)%Q in
  let hi := (inject_Z (4 * Zpos m + 2) * u)%Q in
  if Z.even (Zpos m)
  then Qle_bool lo v && Qle_bool v hi
  else negb (Qle_bool v lo) && negb (Qle_bool hi v).

(** The decimal exponent [k] with [10^(k-1) <= x < 10^k]. *)
Definition decimal_exponent (m : positive) (e : Z) : Z :=
  let x := (inject_Z (Zpos m) * pow2Q e)%Q in
  let k0 := ((Zpos (digits2_pos m) + e) * 30103) / 100000 - 1 in
  if negb (Qle_bool (pow10Q k0) x) then k0
  else if negb (Qle_bool (pow10Q (k0 + 1)) x) then k0 + 1
  else if negb (Qle_bool (pow10Q (k0 + 2)) x) then k0 + 2
  else k0 + 3.

(** The best decimal with [n] significant digits, as [(d, q)] for
    [d * 10^q], when one reads back. *)
Definition candidate (m : positive) (e : Z) (k : Z) (n : Z) : option (Z * Z) :=
  let x := (inject_Z (Zpos m) * pow2Q e)%Q in
  let q := k - n in
  let s := (x / pow10Q q)%Q in
  let d := Qfloor s in
  let down := reads_back m e (inject_Z d * pow10Q q)%Q in
  let up := reads_back m e (inject_Z (d + 1) * pow10Q q)%Q in
  let frac := (s - inject_Z d)%Q in
  match down, up with
  | false, false => None
  | true, false => Some (d, q)
  | false, true => Some (d + 1, q)
  | true, true =>
      match Qcompare frac (1 # 2)%Q with
      | Lt => Some (d, q)
      | Gt => Some (d + 1, q)
      | Eq => Some (if Z.even d then d else d + 1, q)
      end
  end.

Fixpoint shortest (m : positive) (e : Z) (k : Z) (n : Z) (fuel : nat) : Z * Z :=
  match fuel with
  | O => (Qfloor (inject_Z (Zpos m) * pow2Q e / pow10Q (k - n))%Q, k - n)
  | S fuel' =>
      match candidate m e k n with
      | Some dq => dq
      | None => shortest m e k (n + 1) fuel'
      end
  end.

Fixpoint strip_zeros (d q : Z) (fuel : nat) : Z * Z :=
  match fuel with
  | O => (d, q)
  | S fuel' => if (d mod 10 =? 0) && negb (d =? 0)
               then strip_zeros (d / 10) (q + 1) fuel' else (d, q)
  end.

Definition str_of_Z (z : Z) : string := NilZero.string_of_int (Z.to_int z).

Fixpoint zeros (n : nat) : string :=
  match n with
  | O => ""
  | S n' => "0" ++ zeros n'
  end.

Definition exponent_str (x : Z) : string :=
  let a := Z.abs x in
  (if x <? 0 then "-" else "+") ++ (if a <? 10 then "0" else "") ++ str_of_Z a.

Definition format_digits (digits : string) (decpt : Z) : string :=
  let ndig := Z.of_nat (String.length digits) in
  if (decpt <=? -4) || (16 <? decpt) then
    substring 0 1 digits
      ++ (if 1 <? ndig then "." ++ substring 1 (String.length digits - 1)%nat digits else "")
      ++ "e" ++ exponent_str (decpt - 1)
  else if decpt <=? 0 then
    "0." ++ zeros (Z.to_nat (- decpt)) ++ digits
  else if ndig <=? decpt then
    digits ++ zeros (Z.to_nat (decpt - ndig)) ++ ".0"
  else
    substring 0 (Z.to_nat decpt) digits ++ "."
      ++ substring (Z.to_nat decpt) (String.length digits - Z.to_nat decpt)%nat digits.

Definition float_repr (x : spec_float) : string :=
  match x with
  | S754_nan => "nan"
  | S754_infinity s => if s then "-inf" else "inf"
  | S754_zero s => if s then "-0.0" else "0.0"
  | S754_finite s m e =>
      let k := decimal_exponent m e in
      let '(d0, q0) := shortest m e k 1 17 in
      let '(d, q) := strip_zeros d0 q0 17 in
      let digits := str_of_Z d in
      (if s then "-" else "")
        ++ format_digits digits (q + Z.of_nat (String.length digits))
  end.

(** ** Exceptions

    [except Exception] catches every class below [Exception];
    [KeyboardInterrupt] and [SystemExit] derive from [BaseException] only
    and are caught by a bare [except:] alone. *)
Inductive exn : Type :=
| KeyError (key : string)
| TypeError
| IndexError
| JSONDecodeError
| RequestException
| OSError
| KeyboardInterrupt
| SystemExit.

Definition is_Exception (e : exn) : bool :=
  match e with
  | KeyboardInterrupt | SystemExit => false
  | _ => true
  end.

Inductive result (A : Type) : Type :=
| Ok (a : A)
| Raise (e : exn).
Arguments Ok {A} a.
Arguments Raise {A} e.

(** ** Values, as [json.load] and [Response.json] build them *)
Inductive pyval : Type :=
| PyNone
| PyBool (b : bool)
| PyInt (z : Z)
| PyFloat (f : spec_float)
| PyStr (s : string)
| PyList (l : list pyval)
| PyDict (d : list (string * pyval)).

(** [bool(v)], the test behind [if not v]. *)
Definition truthy (v : pyval) : bool :=
  match v with
  | PyNone => false
  | PyBool b => b
  | PyInt z => negb (z =? 0)
  | PyFloat f => negb (SFeqb f (S754_zero false))
  | PyStr s => negb (String.eqb s "")
  | PyList l => match l with [] => false | _ => true end
  | PyDict d => match d with [] => false | _ => true end
  end.

Fixpoint lookup (key : string) (d : list (string * pyval)) : option pyval :=
  match d with
  | [] => None
  | (k, v) :: d' => if String.eqb k key then Some v else lookup key d'
  end.

(** [v[key]] for a string key: a dict looks the key up ([KeyError] when
    it is missing), a list or a string wants an integer index, and nothing
    else can be subscripted ([TypeError] both times). *)
Definition getitem (v : pyval) (key : string) : result pyval :=
  match v with
  | PyDict d =>
      match lookup key d with
      | Some x => Ok x
      | None => Raise (KeyError key)
      end
  | _ => Raise TypeError
  end.

(** [{v}] in an f-string, which is [str(v)].  How a list or a dict prints
    ([repr] of its items, with Python's quoting of strings) is left to
    [container_repr]. *)
Definition py_str (container_repr : pyval -> string) (v : pyval) : string :=
  match v with
  | PyNone => "None"
  | PyBool b => if b then "True" else "False"
  | PyInt z => str_of_Z z
  | PyFloat f => float_repr f
  | PyStr s => s
  | PyList _ | PyDict _ => container_repr v
  end.

(** ** Statements that mutate an object and may raise

    A statement runs on a state [S] and either finishes with a value or
    raises; what it had written to the state before raising stays
    written. *)
Definition M (S A : Type) : Type := S -> result A * S.

Definition ret {S A} (a : A) : M S A := fun s => (Ok a, s).

Definition bind {S A B} (m : M S A) (k : A -> M S B) : M S B :=
  fun s =>
    match m s with
    | (Ok a, s') => k a s'
    | (Raise e, s') => (Raise e, s')
    end.

Definition lift {S A} (r : result A) : M S A := fun s => (r, s).
Definition gets {S A} (f : S -> A) : M S A := fun s => (Ok (f s), s).
Definition modify {S} (f : S -> S) : M S unit := fun s => (Ok tt, f s).

(** [try: body / except: handler] *)
Definition try_except {S A} (body : M S A) (handler : M S A) : M S A :=
  fun s =>
    match body s with
    | (Ok a, s') => (Ok a, s')
    | (Raise _, s') => handler s'
    end.

(** [try: body / except Exception as e: handler] *)
Definition try_except_Exception {S A} (body : M S A) (handler : exn -> M S A) : M S A :=
  fun s =>
    match body s with
    | (Ok a, s') => (Ok a, s')
    | (Raise e, s') => if is_Exception e then handler e s' else (Raise e, s')
    end.

End Py.

Declare Scope py_scope.
Delimit Scope py_scope with py.
Notation "x <- m ;; k" := (Py.bind m (fun x => k))
  (at level 61, m at next level, right associativity) : py_scope.
Notation "m ;;; k" := (Py.bind m (fun _ => k))
  (at level 61, right associativity) : py_scope.

(* ================================================================== *)
(** * The host: what the program asks of the [random] module *)
(* ================================================================== *)

(** A generator state with the two draws everything in [random] is built
    from: [random.random()], a float of [[0.0, 1.0)], and
    [Random._randbelow(n)], an int of [[0, n)]. *)
Class Random : Type := {
  rng : Type;
  random_random : rng -> spec_float * rng;
  randbelow : Z -> rng -> Z * rng
}.

(** The contract of [_randbelow]. *)
Definition randbelow_in_range (R : Random) : Prop :=
  forall n g, 0 < n -> 0 <= fst (randbelow n g) < n.

(** [random.choice(seq)] is [seq[self._randbelow(len(seq))]]; [d] stands
    in for the item when the index falls outside [seq], which the contract
    of [_randbelow] excludes for a non-empty [seq]. *)
Definition random_choice {R : Random} {A} (d : A) (seq : list A) (g : rng) : A * rng :=
  let '(i, g') := randbelow (Z.of_nat (List.length seq)) g in
  (nth (Z.to_nat i) seq d, g').

(** [random.randint(a, b)] is [a + self._randbelow(b + 1 - a)]. *)
Definition random_randint {R : Random} (a b : Z) (g : rng) : Z * rng :=
  let '(r, g') := randbelow (b + 1 - a) g in
  (a + r, g').

(** A linear congruential generator, to run the model on. *)
Definition lcg_next (g : Z) : Z := (g * 1103515245 + 12345) mod 2 ^ 31.

Definition lcg : Random := {|
  rng := Z;
  random_random := fun g => (Py.int_truediv (g mod 2 ^ 31) (2 ^ 31), lcg_next g);
  randbelow := fun n g => (g mod n, lcg_next g)
|}.

(* ================================================================== *)
(** * class MatrixBackground(QWidget) *)
(* ================================================================== *)
Module MatrixBackground.

(** What the painter is asked to draw in one [paintEvent]. *)
Inductive paint_op : Type :=
| FillRect (w h : Z)
| SetFont (family : string) (size : Z)
| SetPen (r g b : Z)
| DrawText (x y : Z) (char : string).

(** The attributes of the widget: the ones [__init__] and
    [init_columns] set, and the size Qt keeps for it. *)
Record t : Type := mk {
  running : bool;
  chars : list string;
  columns : list Z;
  font_size : Z;
  width : Z;
  height : Z
}.

Definition set_columns (cols : list Z) (fs : Z) (m : t) : t :=
  mk (running m) (chars m) cols fs (width m) (height m).

Definition set_running (b : bool) (m : t) : t :=
  mk b (chars m) (columns m) (font_size m) (width m) (height m).

Definition set_geometry (w h : Z) (m : t) : t :=
  mk (running m) (chars m) (columns m) (font_size m) w h.

(** [0.975] *)
Definition threshold : spec_float := Py.int_truediv 975 1000.

(** The row of a column lies below the widget: its pixel position
    exceeds the visible height. *)
Definition below_widget (m : t) (col : Z) : Prop := height m < col * font_size m.

(** What one tick may do to a row. *)
Inductive column_step (m : t) (col col' : Z) : Prop :=
| step_reset : below_widget m col -> col' = 0 -> column_step m col col'
| step_advance : col' = col + 1 -> column_step m col col'.

Section WithRandom.
Context {R : Random}.

(** [[random.randint(0, 20) for _ in range(n)]] *)
Fixpoint random_rows (n : nat) (g : rng) : list Z * rng :=
  match n with
  | O => ([], g)
  | S n' =>
      let '(r, g1) := random_randint 0 20 g in
      let '(rs, g2) := random_rows n' g1 in
      (r :: rs, g2)
  end.

(** [init_columns]: [self.width() or 400] *)
Definition init_columns (m : t) (g : rng) : t * rng :=
  let width := if width m =? 0 then 400 else width m in
  let font_size := 12 in
  let '(cols, g') := random_rows (Z.to_nat (width / font_size)) g in
  (set_columns cols font_size m, g').

(** [resizeEvent]: Qt has stored the new size when it delivers the event. *)
Definition resizeEvent (m : t) (g : rng) : t * rng := init_columns m g.

Definition resize (w h : Z) (m : t) (g : rng) : t * rng :=
  resizeEvent (set_geometry w h m) g.

(** [setGeometry(rect)], as Qt runs it on a widget that is on screen or
    not.  A size that does not change is no event.  A widget on screen
    is sent its resize event at once; for a hidden one Qt stores the new
    size and holds the event back until the widget is shown. *)
Definition setGeometry (on_screen : bool) (w h : Z) (m : t) (g : rng) : t * rng :=
  if (w =? width m) && (h =? height m) then (m, g)
  else if on_screen then resize w h m g
  else (set_geometry w h m, g).

(** [__init__], for a widget Qt has created with size [w] x [h]. *)
Definition init (w h : Z) (g : rng) : t * rng :=
  init_columns
    (mk true (map (fun i => String (ascii_of_nat i) "") (seq 33 94)) [] 0 w h) g.

(** One turn of the [for i, col in enumerate(self.columns)] loop: the
    new row of column [i], the generator and the glyph drawn.
    [random.random()] is drawn only once the row is below the widget. *)
Definition step_column (m : t) (i col : Z) (g : rng) : Z * rng * paint_op :=
  let '(char, g1) := random_choice "" (chars m) g in
  let x := i * font_size m in
  let y := col * font_size m in
  if col * font_size m >? height m then
    let '(r, g2) := random_random g1 in
    if Py.fgt r threshold then (0, g2, DrawText x y char)
    else (col + 1, g2, DrawText x y char)
  else (col + 1, g1, DrawText x y char).

Fixpoint paint_columns (m : t) (i : Z) (cols : list Z) (g : rng)
  : list Z * rng * list paint_op :=
  match cols with
  | [] => ([], g, [])
  | col :: rest =>
      let '(col', g1, op) := step_column m i col g in
      let '(rest', g2, ops) := paint_columns m (i + 1) rest g1 in
      (col' :: rest', g2, op :: ops)
  end.

(** [paintEvent]: nothing at all while the effect is off. *)
Definition paintEvent (m : t) (g : rng) : t * rng * list paint_op :=
  if negb (running m) then (m, g, [])
  else
    let '(cols, g', ops) := paint_columns m 0 (columns m) g in
    (set_columns cols (font_size m) m, g',
     FillRect (width m) (height m) :: SetFont "Consolas" (font_size m)
       :: SetPen 0 255 0 :: ops).

(** [toggle]; the [self.update()] that follows asks Qt for a repaint,
    which comes as a [paintEvent] of its own. *)
Definition toggle (m : t) : t := set_running (negb (running m)) m.

(** [n] paint events in a row. *)
Fixpoint ticks (n : nat) (m : t) (g : rng) : t * rng :=
  match n with
  | O => (m, g)
  | S n' => let '(m', g', _) := paintEvent m g in ticks n' m' g'
  end.

(** *** The widget over its life *)

(** The widget as Qt keeps it: the Python object, whether it is on
    screen ([isVisible()]) and whether a resize event is held back for it
    ([WA_PendingResizeEvent]). *)
Record widget : Type := mk_widget {
  it : t;
  visible : bool;
  resize_pending : bool
}.

(** A widget is created hidden, and owed a resize event for its first
    show; [__init__] runs at the size Qt creates it with. *)
Definition created (w h : Z) (g : rng) : widget * rng :=
  let '(m, g') := init w h g in (mk_widget m false true, g').

(** What happens to the widget once it is created: Qt repaints it, the
    dashboard toggles it and sets its geometry, Qt shows and hides it
    with the page it lies on. *)
Inductive action : Type :=
| Paint
| Toggle
| SetGeometry (w h : Z)
| Show
| Hide.

(** Qt paints a widget that is on screen, and no other; a widget that
    comes on screen is first sent the resize event held back for it. *)
Definition act (a : action) (q : widget) (g : rng) : widget * rng :=
  match a with
  | Paint =>
      if visible q then
        let '(m, g', _) := paintEvent (it q) g in
        (mk_widget m (visible q) (resize_pending q), g')
      else (q, g)
  | Toggle => (mk_widget (toggle (it q)) (visible q) (resize_pending q), g)
  | SetGeometry w h =>
      let '(m, g') := setGeometry (visible q) w h (it q) g in
      (mk_widget m (visible q)
         (resize_pending q
          || negb (visible q)
             && negb ((w =? width (it q)) && (h =? height (it q)))),
       g')
  | Show =>
      if visible q then (q, g)
      else if resize_pending q then
        let '(m, g') := resizeEvent (it q) g in (mk_widget m true false, g')
      else (mk_widget (it q) true false, g)
  | Hide => (mk_widget (it q) false (resize_pending q), g)
  end.

Fixpoint acts (l : list action) (q : widget) (g : rng) : widget * rng :=
  match l with
  | [] => (q, g)
  | a :: rest => let '(q', g') := act a q g in acts rest q' g'
  end.

(** [[chr(i) for i in range(33, 127)]] *)
Definition glyphs : list string :=
  map (fun i => String (ascii_of_nat i) "") (seq 33 94).

(** [self.width() or 400] *)
Definition effective_width (m : t) : Z := if width m =? 0 then 400 else width m.

(** The widget as [init_columns] lays it out: cells of 12, the glyphs
    of [__init__], one column per 12 pixels of width, no row above the
    top. *)
Definition laid_out (m : t) : Prop :=
  font_size m = 12
  /\ chars m = glyphs
  /\ List.length (columns m) = Z.to_nat (effective_width m / 12)
  /\ Forall (fun r => 0 <= r) (columns m).

(** What holds of the widget whether or not its columns match its
    width. *)
Definition well_formed (m : t) : Prop :=
  font_size m = 12 /\ chars m = glyphs /\ Forall (fun r => 0 <= r) (columns m).

(** What Qt and [init_columns] keep true of the widget between them:
    unless a resize event is held back the columns match the width, and
    nothing is held back for a widget on screen. *)
Definition consistent (q : widget) : Prop :=
  well_formed (it q)
  /\ (resize_pending q = false -> laid_out (it q))
  /\ (visible q = true -> resize_pending q = false).

(** How far a row can be after [n] ticks, and where it is for sure. *)
Definition advanced (m : t) (n : nat) (col col' : Z) : Prop :=
  col' <= col + Z.of_nat n
  /\ ((col + Z.of_nat n - 1) * font_size m <= height m -> col' = col + Z.of_nat n).

(** The glyphs a paint draws, with their positions. *)
Definition drawn (ops : list paint_op) : list (Z * Z * string) :=
  flat_map (fun op => match op with
                      | DrawText x y c => [(x, y, c)]
                      | _ => []
                      end) ops.

(** [enumerate(self.columns)], counting from [i]. *)
Fixpoint enumerate (i : Z) (cols : list Z) : list (Z * Z) :=
  match cols with
  | [] => []
  | col :: rest => (i, col) :: enumerate (i + 1) rest
  end.

End WithRandom.
End MatrixBackground.

(* ================================================================== *)
(** * class AnalogClock(QWidget) *)
(* ================================================================== *)

(** What [datetime.datetime.now()] returns. *)
Record datetime : Type := mk_datetime {
  year : Z; month : Z; day : Z;
  hour : Z; minute : Z; second : Z
}.

Module AnalogClock.

(** The part of [QPainter] the clock uses.  The world transform is kept
    as the list of the calls that built it, oldest first; [save] and
    [restore] push and pop it together with the pen and the brush. *)
Inductive xform : Type :=
| Translate (dx dy : spec_float)
| Scale (sx sy : spec_float)
| Rotate (a : spec_float).

Inductive pen : Type :=
| NoPen
| QPen (color : string) (width : Z).

Inductive brush : Type :=
| NoBrush
| QBrush (color : string).

Inductive shape : Type :=
| Ellipse (tr : list xform) (p : pen) (b : brush) (x y w h : Z)
| Line (tr : list xform) (p : pen) (x1 y1 x2 y2 : Z).

Record QPainter : Type := mk_painter {
  transform : list xform;
  cur_pen : pen;
  cur_brush : brush;
  saved : list (list xform * pen * brush);
  canvas : list shape
}.

Definition begin : QPainter := mk_painter [] (QPen "black" 1) NoBrush [] [].

Definition apply (x : xform) (p : QPainter) : QPainter :=
  mk_painter (transform p ++ [x]) (cur_pen p) (cur_brush p) (saved p) (canvas p).

Definition translate (dx dy : spec_float) := apply (Translate dx dy).
Definition scale (sx sy : spec_float) := apply (Scale sx sy).
Definition rotate (a : spec_float) := apply (Rotate a).

Definition setPen (q : pen) (p : QPainter) : QPainter :=
  mk_painter (transform p) q (cur_brush p) (saved p) (canvas p).

Definition setBrush (b : brush) (p : QPainter) : QPainter :=
  mk_painter (transform p) (cur_pen p) b (saved p) (canvas p).

Definition draw (s : shape) (p : QPainter) : QPainter :=
  mk_painter (transform p) (cur_pen p) (cur_brush p) (saved p) (canvas p ++ [s]).

Definition drawEllipse (x y w h : Z) (p : QPainter) : QPainter :=
  draw (Ellipse (transform p) (cur_pen p) (cur_brush p) x y w h) p.

Definition drawLine (x1 y1 x2 y2 : Z) (p : QPainter) : QPainter :=
  draw (Line (transform p) (cur_pen p) x1 y1 x2 y2) p.

Definition save (p : QPainter) : QPainter :=
  mk_painter (transform p) (cur_pen p) (cur_brush p)
    ((transform p, cur_pen p, cur_brush p) :: saved p) (canvas p).

(** An unbalanced [restore] is ignored by Qt. *)
Definition restore (p : QPainter) : QPainter :=
  match saved p with
  | [] => p
  | (tr, q, b) :: rest => mk_painter tr q b rest (canvas p)
  end.

(** [for i in range(12): painter.drawLine(0, -120, 0, -135); painter.rotate(30)] *)
Fixpoint marks (n : nat) (p : QPainter) : QPainter :=
  match n with
  | O => p
  | S n' => marks n' (rotate (Py.float_of_Z 30) (drawLine 0 (-120) 0 (-135) p))
  end.

(** [paintEvent] of a widget of size [width] x [height]; [clock k] is what
    the [k]-th call of [datetime.datetime.now()] returns and [reads] counts
    the calls made so far.  An int handed to [rotate] reaches Qt as a
    double. *)
Definition paintEvent (width height : Z) (clock : nat -> datetime) (reads : nat)
  : list shape * nat :=
  let painter := begin in
  let side := Z.min width height in
  let painter := translate (Py.int_truediv width 2) (Py.int_truediv height 2) painter in
  let painter := scale (Py.int_div_float side (Py.float_of_Z 300))
                       (Py.int_div_float side (Py.float_of_Z 300)) painter in
  (* Face *)
  let painter := setPen NoPen painter in
  let painter := setBrush (QBrush "#222") painter in
  let painter := drawEllipse (-140) (-140) 280 280 painter in
  (* Hour / minute marks *)
  let painter := setPen (QPen "white" 3) painter in
  let painter := marks 12 painter in
  (* Hands *)
  let now := clock reads in
  let reads := S reads in
  (* Hour hand *)
  let painter := save painter in
  let painter :=
    rotate (Py.int_mul_float 30
              (Py.int_add_float (hour now mod 12) (Py.int_truediv (minute now) 60)))
           painter in
  let painter := setPen (QPen "#00aaff" 6) painter in
  let painter := drawLine 0 0 0 (-70) painter in
  let painter := restore painter in
  (* Minute hand *)
  let painter := save painter in
  let painter :=
    rotate (Py.int_mul_float 6
              (Py.int_add_float (minute now) (Py.int_truediv (second now) 60)))
           painter in
  let painter := setPen (QPen "white" 4) painter in
  let painter := drawLine 0 0 0 (-100) painter in
  let painter := restore painter in
  (* Second hand *)
  let painter := save painter in
  let painter := rotate (Py.float_of_Z (6 * second now)) painter in
  let painter := setPen (QPen "red" 2) painter in
  let painter := drawLine 0 10 0 (-120) painter in
  let painter := restore painter in
  (canvas painter, reads).

(** *** Reading the picture

    The hand drawn with pen [q]: the transform it was drawn under and
    its end points. *)
Definition pen_eqb (a b : pen) : bool :=
  match a, b with
  | NoPen, NoPen => true
  | QPen c w, QPen c' w' => String.eqb c c' && (w =? w')
  | _, _ => false
  end.

Definition lines_with (q : pen) (shapes : list shape) : list (list xform * (Z * Z * Z * Z)) :=
  flat_map (fun s => match s with
                     | Line tr p x1 y1 x2 y2 =>
                         if pen_eqb p q then [(tr, (x1, y1, x2, y2))] else []
                     | _ => []
                     end) shapes.

(** The frame of the dial: the transform the twelve marks leave behind
    them, under which every hand is then turned. *)
Definition dial_frame (width height : Z) : list xform :=
  [Translate (Py.int_truediv width 2) (Py.int_truediv height 2);
   Scale (Py.int_div_float (Z.min width height) (Py.float_of_Z 300))
         (Py.int_div_float (Z.min width height) (Py.float_of_Z 300))]
  ++ repeat (Rotate (Py.float_of_Z 30)) 12.

(** Degrees the rotations of a transform add up to. *)
Definition degrees (tr : list xform) : Q :=
  fold_right (fun x acc => match x with
                           | Rotate a => (Py.SF2Q a + acc)%Q
                           | _ => acc
                           end) 0%Q tr.

(** The angles of section 4.2 of the specification, as the real numbers
    its formulas denote. *)
Definition spec_hour_angle (h m : Z) : Q :=
  (30 * (inject_Z (h mod 12) + inject_Z m / 60))%Q.

Definition spec_minute_angle (m s : Z) : Q :=
  (6 * (inject_Z m + inject_Z s / 60))%Q.

Definition spec_second_angle (s : Z) : Q := (6 * inject_Z s)%Q.

(** The same formulas as the program's language evaluates them: in
    binary64, every number a float and every operation rounded to
    nearest. *)
Definition spec_hour_float (h m : Z) : spec_float :=
  Py.fmul (Py.float_of_Z 30)
    (Py.fadd (Py.float_of_Z (h mod 12)) (Py.fdiv (Py.float_of_Z m) (Py.float_of_Z 60))).

Definition spec_minute_float (m s : Z) : spec_float :=
  Py.fmul (Py.float_of_Z 6)
    (Py.fadd (Py.float_of_Z m) (Py.fdiv (Py.float_of_Z s) (Py.float_of_Z 60))).

Definition spec_second_float (s : Z) : spec_float :=
  Py.fmul (Py.float_of_Z 6) (Py.float_of_Z s).

(** The two floats are the same datum. *)
Definition same_float (a b : spec_float) : bool :=
  match a, b with
  | S754_zero s, S754_zero s' => Bool.eqb s s'
  | S754_infinity s, S754_infinity s' => Bool.eqb s s'
  | S754_nan, S754_nan => true
  | S754_finite s m e, S754_finite s' m' e' =>
      Bool.eqb s s' && Pos.eqb m m' && Z.eqb e e'
  | _, _ => false
  end.

Definition valid_time (t : datetime) : Prop :=
  0 <= hour t < 24 /\ 0 <= minute t < 60 /\ 0 <= second t < 60.

(** The three angles [paintEvent] hands to [rotate], as functions of the
    fields of the sample they are computed from. *)
Definition hour_angle (h m : Z) : spec_float :=
  Py.int_mul_float 30 (Py.int_add_float (h mod 12) (Py.int_truediv m 60)).

Definition minute_angle (m s : Z) : spec_float :=
  Py.int_mul_float 6 (Py.int_add_float m (Py.int_truediv s 60)).

Definition second_angle (s : Z) : spec_float := Py.float_of_Z (6 * s).

Definition hour_rotation (t : datetime) : spec_float := hour_angle (hour t) (minute t).
Definition minute_rotation (t : datetime) : spec_float := minute_angle (minute t) (second t).
Definition second_rotation (t : datetime) : spec_float := second_angle (second t).

(** The distance allowed between a painted angle and the real number the
    formula denotes: 10^-13 of a degree. *)
Definition tolerance : Q := (1 # 10000000000000)%Q.

Definition near (a : spec_float) (x : Q) : bool :=
  Py.is_finite a && Qle_bool (Qabs (Py.SF2Q a - x)) tolerance.

Definition hour_ok (h m : Z) : bool :=
  near (hour_angle h m) (spec_hour_angle h m)
  && (if m =? 0
      then Qeq_bool (Py.SF2Q (hour_angle h m)) (spec_hour_angle h m)
      else true).

Definition minute_ok (m s : Z) : bool :=
  near (minute_angle m s) (spec_minute_angle m s)
  && (if s =? 0
      then Qeq_bool (Py.SF2Q (minute_angle m s)) (spec_minute_angle m s)
      else true).

Definition second_ok (s : Z) : bool :=
  same_float (second_angle s) (spec_second_float s)
  && Py.is_finite (second_angle s)
  && Qeq_bool (Py.SF2Q (second_angle s)) (spec_second_angle s).

Definition zrange (n : nat) : list Z := map Z.of_nat (seq 0 n).

(** What section 4.2 asks of one [paintEvent]: the clock is read once;
    each hand is one line, turned from the frame of the dial (a full turn
    of twelve marks, so that the turn of the hand is its angle on the
    dial) by exactly the value of its formula, [30 * (hour mod 12 +
    minute/60)], [6 * (minute + second/60)] and [6 * second], all three on
    the fields of the one sample read; at 03:00:00 these are 90, 0 and 0.
    The values are binary64 numbers: they are finite, that of the second
    hand is the real number its formula denotes, and those of the hour and
    minute hands are within [tolerance] of theirs, and equal to them on
    the full hour and on the full minute. *)
Definition hands_as_specified (width height : Z) (clock : nat -> datetime)
  (reads : nat) : Prop :=
  let now := clock reads in
  let shapes := fst (paintEvent width height clock reads) in
  let ah := spec_hour_float (hour now) (minute now) in
  let am := spec_minute_float (minute now) (second now) in
  let asec := spec_second_float (second now) in
  snd (paintEvent width height clock reads) = S reads
  /\ (degrees (dial_frame width height) == 360)%Q
  /\ lines_with (QPen "#00aaff" 6) shapes
     = [((dial_frame width height ++ [Rotate ah])%list, (0, 0, 0, -70))]
  /\ lines_with (QPen "white" 4) shapes
     = [((dial_frame width height ++ [Rotate am])%list, (0, 0, 0, -100))]
  /\ lines_with (QPen "red" 2) shapes
     = [((dial_frame width height ++ [Rotate asec])%list, (0, 10, 0, -120))]
  /\ (hour now = 3 -> minute now = 0 -> second now = 0 ->
      (Py.SF2Q ah == 90)%Q /\ (Py.SF2Q am == 0)%Q /\ (Py.SF2Q asec == 0)%Q)
  /\ Py.is_finite ah = true /\ Py.is_finite am = true /\ Py.is_finite asec = true
  /\ (Qabs (Py.SF2Q ah - spec_hour_angle (hour now) (minute now)) <= tolerance)%Q
  /\ (Qabs (Py.SF2Q am - spec_minute_angle (minute now) (second now)) <= tolerance)%Q
  /\ (Py.SF2Q asec == spec_second_angle (second now))%Q
  /\ (minute now = 0 ->
      (Py.SF2Q ah == spec_hour_angle (hour now) (minute now))%Q)
  /\ (second now = 0 ->
      (Py.SF2Q am == spec_minute_angle (minute now) (second now))%Q).

(** The transform the face is drawn under: the origin at the centre of
    the widget, 300 units across its smaller side. *)
Definition centred (width height : Z) : list xform :=
  [Translate (Py.int_truediv width 2) (Py.int_truediv height 2);
   Scale (Py.int_div_float (Z.min width height) (Py.float_of_Z 300))
         (Py.int_div_float (Z.min width height) (Py.float_of_Z 300))].

(** The hand points into the sector of [step] degrees that starts at
    [step * unit]. *)
Definition in_sector (a : spec_float) (step unit : Z) : bool :=
  Py.is_finite a
  && Qle_bool (inject_Z (step * unit)) (Py.SF2Q a)
  && negb (Qle_bool (inject_Z (step * (unit + 1))) (Py.SF2Q a)).

Definition hour_in_sector (h m : Z) : bool := in_sector (hour_angle h m) 30 (h mod 12).
Definition minute_in_sector (m s : Z) : bool := in_sector (minute_angle m s) 6 m.

End AnalogClock.

(* ================================================================== *)
(** * class Dashboard(QWidget) *)
(* ================================================================== *)

(** A file opened for reading, by what [json.load] makes of it. *)
Record file : Type := { json_load : Py.result Py.pyval }.

(** A [requests.Response]: its status and what [.json()] makes of its
    body. *)
Record response : Type := { status_code : Z; json : Py.result Py.pyval }.

(** What the dashboard asks of its surroundings: random numbers, the
    printing of containers, the file system, the network and the wall
    clock.  [requests_get log url] answers the request for [url] made
    after the requests of [log] (latest first). *)
Class Host : Type := {
  host_random : Random;
  container_repr : Py.pyval -> string;
  open_ : string -> Py.result file;
  requests_get : list string -> string -> Py.result response;
  datetime_now : nat -> datetime
}.

(** The three pages of the stacked widget. *)
Inductive Screen : Type := Main | WeatherDetail | Calendar.

(** A [QStackedWidget]: the first page added becomes the current one,
    and [setCurrentIndex] ignores an index that names no page. *)
Module QStackedWidget.

Record t : Type := mk { pages : list Screen; currentIndex : Z }.

Definition new : t := mk [] (-1).

Definition addWidget (w : Screen) (s : t) : t :=
  mk (pages s ++ [w]) (if currentIndex s <? 0 then 0 else currentIndex s).

Definition setCurrentIndex (i : Z) (s : t) : t :=
  if (0 <=? i) && (i <? Z.of_nat (List.length (pages s)))
  then mk (pages s) i else s.

Definition currentWidget (s : t) : option Screen :=
  if currentIndex s <? 0 then None else nth_error (pages s) (Z.to_nat (currentIndex s)).

End QStackedWidget.

Module Dashboard.

Definition nl : string := String (ascii_of_nat 10) "".

(** [now.strftime("%m/%d/%Y")], for a year of four digits. *)
Definition pad2 (z : Z) : string := (if z <? 10 then "0" else "") ++ Py.str_of_Z z.
Definition strftime_mdY (d : datetime) : string :=
  pad2 (month d) ++ "/" ++ pad2 (day d) ++ "/" ++ Py.str_of_Z (year d).

(** [QWidget()], a window of its own, is 640 x 480 until something
    resizes it. *)
Definition window_size : Z * Z := (640, 480).

(** The attributes of the dashboard: the key and the location, the stack
    of pages, the texts of the two buttons and of the two labels the
    program rewrites, and the background widget; and, of what Qt keeps,
    whether the window is on screen.  The background is on screen when the
    window is. *)
Record t : Type := mk {
  api_key : Py.pyval;
  location : Py.pyval;
  stack : QStackedWidget.t;
  temp_btn : string;
  date_btn : string;
  weather_info : string;
  matrix_btn : string;
  matrix_bg : MatrixBackground.t;
  shown : bool
}.

Definition set_stack (x : QStackedWidget.t) (d : t) : t :=
  mk (api_key d) (location d) x (temp_btn d) (date_btn d) (weather_info d)
     (matrix_btn d) (matrix_bg d) (shown d).
Definition set_temp_btn (x : string) (d : t) : t :=
  mk (api_key d) (location d) (stack d) x (date_btn d) (weather_info d)
     (matrix_btn d) (matrix_bg d) (shown d).
Definition set_date_btn (x : string) (d : t) : t :=
  mk (api_key d) (location d) (stack d) (temp_btn d) x (weather_info d)
     (matrix_btn d) (matrix_bg d) (shown d).
Definition set_weather_info (x : string) (d : t) : t :=
  mk (api_key d) (location d) (stack d) (temp_btn d) (date_btn d) x
     (matrix_btn d) (matrix_bg d) (shown d).
Definition set_matrix_btn (x : string) (d : t) : t :=
  mk (api_key d) (location d) (stack d) (temp_btn d) (date_btn d) (weather_info d)
     x (matrix_bg d) (shown d).
Definition set_matrix_bg (x : MatrixBackground.t) (d : t) : t :=
  mk (api_key d) (location d) (stack d) (temp_btn d) (date_btn d) (weather_info d)
     (matrix_btn d) x (shown d).
Definition set_shown (x : bool) (d : t) : t :=
  mk (api_key d) (location d) (stack d) (temp_btn d) (date_btn d) (weather_info d)
     (matrix_btn d) (matrix_bg d) x.

Section WithHost.
Context {H : Host}.

(** What lies outside the object and changes as the program runs: the
    generator, the requests sent so far (latest first) and the number of
    times the clock was read. *)
Record World : Type := mk_world {
  gen : @rng host_random;
  requests : list string;
  clock_reads : nat
}.

Record state : Type := mk_state { self : t; world : World }.

Definition on_self (f : t -> t) : Py.M state unit :=
  Py.modify (fun s => mk_state (f (self s)) (world s)).

(** [requests.get(url)]: the request goes out, then the answer or the
    failure comes back. *)
Definition requests_get_ (url : string) : Py.M state response :=
  fun s =>
    let w := world s in
    (requests_get (requests w) url,
     mk_state (self s) (mk_world (gen w) (url :: requests w) (clock_reads w))).

(** [datetime.datetime.now()] *)
Definition now_ : Py.M state datetime :=
  fun s =>
    let w := world s in
    (Py.Ok (datetime_now (clock_reads w)),
     mk_state (self s) (mk_world (gen w) (requests w) (S (clock_reads w)))).

Local Open Scope py_scope.

(** [load_weather_key] *)
Definition load_weather_key : Py.M state (Py.pyval * Py.pyval) :=
  Py.try_except
    (f <- Py.lift (open_ "Wapi.json") ;;
     data <- Py.lift (json_load f) ;;
     k <- Py.lift (Py.getitem data "api_key") ;;
     l <- Py.lift (Py.getitem data "location") ;;
     Py.ret (k, l))
    (Py.ret (Py.PyNone, Py.PyNone)).

(** Navigation *)
Definition show_main : Py.M state unit :=
  on_self (fun d => set_stack (QStackedWidget.setCurrentIndex 0 (stack d)) d).
Definition show_weather : Py.M state unit :=
  on_self (fun d => set_stack (QStackedWidget.setCurrentIndex 1 (stack d)) d).
Definition show_calendar : Py.M state unit :=
  on_self (fun d => set_stack (QStackedWidget.setCurrentIndex 2 (stack d)) d).

(** [update_clock] *)
Definition update_clock : Py.M state unit :=
  now <- now_ ;;
  on_self (set_date_btn (strftime_mdY now)).

(** Lines 335 and 336: the two values read out of the answer. *)
Definition extract (r : Py.pyval) : Py.result (Py.pyval * Py.pyval) :=
  match Py.getitem r "current" with
  | Py.Raise e => Py.Raise e
  | Py.Ok cur =>
      match Py.getitem cur "temp_f" with
      | Py.Raise e => Py.Raise e
      | Py.Ok temp_f =>
          match Py.getitem r "current" with
          | Py.Raise e => Py.Raise e
          | Py.Ok cur' =>
              match Py.getitem cur' "condition" with
              | Py.Raise e => Py.Raise e
              | Py.Ok cond =>
                  match Py.getitem cond "text" with
                  | Py.Raise e => Py.Raise e
                  | Py.Ok condition => Py.Ok (temp_f, condition)
                  end
              end
          end
      end
  end.

Definition weather_url (key loc : Py.pyval) : string :=
  "http://api.weatherapi.com/v1/current.json?key=" ++ Py.py_str container_repr key
    ++ "&q=" ++ Py.py_str container_repr loc.

(** [update_weather] *)
Definition update_weather : Py.M state unit :=
  key <- Py.gets (fun s => api_key (self s)) ;;
  if negb (Py.truthy key) then
    on_self (set_temp_btn "No API")
  else
    Py.try_except_Exception
      (loc <- Py.gets (fun s => location (self s)) ;;
       let url := weather_url key loc in
       resp <- requests_get_ url ;;
       r <- Py.lift (json resp) ;;
       tc <- Py.lift (extract r) ;;
       let '(temp_f, condition) := tc in
       on_self (set_temp_btn (Py.py_str container_repr temp_f ++ "°F")) ;;;
       on_self (set_weather_info
                  ("Temperature: " ++ Py.py_str container_repr temp_f ++ "°F" ++ nl
                     ++ "Condition: " ++ Py.py_str container_repr condition)))
      (fun e =>
         on_self (set_temp_btn "Err") ;;;
         on_self (set_weather_info "Weather load error")).

(** [toggle_matrix] *)
Definition toggle_matrix : Py.M state unit :=
  on_self (fun d => set_matrix_bg (MatrixBackground.toggle (matrix_bg d)) d) ;;;
  running <- Py.gets (fun s => MatrixBackground.running (matrix_bg (self s))) ;;
  if running then on_self (set_matrix_btn "Matrix ON")
  else on_self (set_matrix_btn "Matrix OFF").

(** [resizeEvent], with [w] x [h] the size of the main screen:
    [setGeometry] hands it to the background, which Qt sends a resize
    event of its own when its size changes, at once if it is on screen. *)
Definition resizeEvent (w h : Z) : Py.M state unit :=
  fun s =>
    let '(m', g) :=
      MatrixBackground.setGeometry (shown (self s)) w h (matrix_bg (self s))
        (gen (world s)) in
    (Py.Ok tt,
     mk_state (set_matrix_bg m' (self s))
              (mk_world g (requests (world s)) (clock_reads (world s)))).

(** The repaint of the background that its 50 ms timer (or a toggle)
    has asked for; Qt paints what is on screen. *)
Definition matrix_tick : Py.M state unit :=
  fun s =>
    if shown (self s) then
      let '(m, g, _) :=
        MatrixBackground.paintEvent (matrix_bg (self s)) (gen (world s)) in
      (Py.Ok tt,
       mk_state (set_matrix_bg m (self s))
                (mk_world g (requests (world s)) (clock_reads (world s))))
    else (Py.Ok tt, s).

(** [window.showFullScreen()], line 387: the window comes on screen,
    and the background with it, which is now sent the resize event Qt has
    held back since it was created. *)
Definition showFullScreen : Py.M state unit :=
  fun s =>
    if shown (self s) then (Py.Ok tt, s)
    else
      let '(m, g) :=
        MatrixBackground.resizeEvent (matrix_bg (self s)) (gen (world s)) in
      (Py.Ok tt,
       mk_state (set_shown true (set_matrix_bg m (self s)))
                (mk_world g (requests (world s)) (clock_reads (world s)))).

(** The background as [build_main_screen] leaves it: created on the
    page at size [w] x [h], where [__init__] lays out its columns, then
    given the size of the page by [setGeometry(screen.rect())], line 194.
    The page is a window of its own at that point, and nothing is on
    screen. *)
Definition build_background (w h : Z) (g : @rng host_random)
  : MatrixBackground.t * @rng host_random :=
  let '(m, g1) := MatrixBackground.init w h g in
  MatrixBackground.setGeometry false (fst window_size) (snd window_size) m g1.

(** [__init__], with [w] x [h] the size Qt gives the background when it
    is created (100 x 30 for a widget with a parent).  The three
    [build_..._screen] calls leave the initial texts behind them;
    [start_timers] only arms the two timers whose timeouts are events
    below. *)
Definition init (w h : Z) : World -> Py.result t * World :=
  fun w0 =>
    let '(m, g) := build_background w h (gen w0) in
    let stacked := QStackedWidget.addWidget Calendar
                   (QStackedWidget.addWidget WeatherDetail
                      (QStackedWidget.addWidget Main QStackedWidget.new)) in
    let d0 := mk Py.PyNone Py.PyNone stacked "Loading…" "00/00/0000" "Loading…"
                 "Matrix ON" m false in
    let s0 := mk_state d0 (mk_world g (requests w0) (clock_reads w0)) in
    let body :=
      kl <- load_weather_key ;;
      on_self (fun d => mk (fst kl) (snd kl) (stack d) (temp_btn d) (date_btn d)
                           (weather_info d) (matrix_btn d) (matrix_bg d) (shown d)) ;;;
      update_clock ;;;
      update_weather in
    match body s0 with
    | (Py.Ok _, s1) => (Py.Ok (self s1), world s1)
    | (Py.Raise e, s1) => (Py.Raise e, world s1)
    end.

(** What Qt delivers to the dashboard once it runs: the two timers of
    [start_timers], the clicks the buttons are connected to, the timer of
    the background, a resize of the window, and the show of the window
    that ends the program text. *)
Inductive event : Type :=
| ClockTimeout
| WeatherTimeout
| TempClicked
| DateClicked
| BackClicked
| MatrixClicked
| MatrixPaint
| Resized (w h : Z)
| Shown.

Definition handle (e : event) : Py.M state unit :=
  match e with
  | ClockTimeout => update_clock
  | WeatherTimeout => update_weather
  | TempClicked => show_weather
  | DateClicked => show_calendar
  | BackClicked => show_main
  | MatrixClicked => toggle_matrix
  | MatrixPaint => matrix_tick
  | Resized w h => resizeEvent w h
  | Shown => showFullScreen
  end.

(** A run of events; an exception that leaves a handler ends it. *)
Fixpoint run (evs : list event) : Py.M state unit :=
  match evs with
  | [] => Py.ret tt
  | e :: rest => handle e ;;; run rest
  end.

(** *** The vocabulary of the specification *)

(** [show(screen)] of section 4.3 is one of the three navigation
    methods; [current()] is the page the stack shows. *)
Definition show (sc : Screen) : Py.M state unit :=
  match sc with
  | Main => show_main
  | WeatherDetail => show_weather
  | Calendar => show_calendar
  end.

Definition current (d : t) : option Screen := QStackedWidget.currentWidget (stack d).

(** The answer has the shape [{current: {temp_f, condition: {text}}}]. *)
Definition has_fields (r : Py.pyval) : bool :=
  match r with
  | Py.PyDict d =>
      match Py.lookup "current" d with
      | Some (Py.PyDict cur) =>
          match Py.lookup "temp_f" cur, Py.lookup "condition" cur with
          | Some _, Some (Py.PyDict cond) =>
              match Py.lookup "text" cond with
              | Some _ => true
              | None => false
              end
          | _, _ => false
          end
      | _ => false
      end
  | _ => false
  end.

(** [n] refreshes in a row, with the state after each of them. *)
Fixpoint refreshes (n : nat) (s : state) : list (Py.result unit * state) :=
  match n with
  | O => []
  | S n' => let rs := update_weather s in rs :: refreshes n' (snd rs)
  end.

(** What can be wrong with [Wapi.json]: it cannot be opened (absent,
    unreadable), [json.load] fails on it, what it holds is not an object,
    or the object lacks one of the two keys. *)
Inductive config_problem : Prop :=
| cannot_open (e : Py.exn) :
    open_ "Wapi.json" = Py.Raise e -> config_problem
| cannot_parse (f : file) (e : Py.exn) :
    open_ "Wapi.json" = Py.Ok f -> json_load f = Py.Raise e -> config_problem
| not_an_object (f : file) (data : Py.pyval) :
    open_ "Wapi.json" = Py.Ok f -> json_load f = Py.Ok data ->
    (forall d, data <> Py.PyDict d) -> config_problem
| key_missing (f : file) (d : list (string * Py.pyval)) (key : string) :
    open_ "Wapi.json" = Py.Ok f -> json_load f = Py.Ok (Py.PyDict d) ->
    key = "api_key" \/ key = "location" ->
    Py.lookup key d = None -> config_problem.

(** The state once the request for the weather has gone out. *)
Definition requested (s : state) : state :=
  let w := world s in
  mk_state (self s)
    (mk_world (gen w)
       (weather_url (api_key (self s)) (location (self s)) :: requests w)
       (clock_reads w)).

(** The two labels rewritten. *)
Definition with_texts (summary detail : string) (s : state) : state :=
  mk_state (set_weather_info detail (set_temp_btn summary (self s))) (world s).

(** The summary reads "No API"; nothing else has changed. *)
Definition disabled (s : state) : state :=
  mk_state (set_temp_btn "No API" (self s)) (world s).

(** The texts of lines 338 to 341, summary first. *)
Definition populated_texts (temp_f condition : Py.pyval) : string * string :=
  (Py.py_str container_repr temp_f ++ "°F",
   "Temperature: " ++ Py.py_str container_repr temp_f ++ "°F" ++ nl
     ++ "Condition: " ++ Py.py_str container_repr condition).

(** What the server says to the request a refresh of [s] sends. *)
Definition answer (s : state) : Py.result response :=
  requests_get (requests (world s))
    (weather_url (api_key (self s)) (location (self s))).

(** The refresh of [s] fails: the request raises (no network, time
    out...), the body is not JSON, or the JSON lacks an expected field. *)
Inductive fetch_failure (s : state) : Prop :=
| network_error (e : Py.exn) :
    answer s = Py.Raise e -> Py.is_Exception e = true -> fetch_failure s
| malformed_json (resp : response) (e : Py.exn) :
    answer s = Py.Ok resp -> json resp = Py.Raise e -> Py.is_Exception e = true ->
    fetch_failure s
| missing_field (resp : response) (r : Py.pyval) :
    answer s = Py.Ok resp -> json resp = Py.Ok r -> has_fields r = false ->
    fetch_failure s.

(** [needle in hay] *)
Definition contains (needle hay : string) : bool :=
  match index 0 needle hay with
  | Some _ => true
  | None => false
  end.

(** The stack holds the three pages and shows one of them. *)
Definition three_pages (st : QStackedWidget.t) : Prop :=
  QStackedWidget.pages st = [Main; WeatherDetail; Calendar]
  /\ 0 <= QStackedWidget.currentIndex st < 3.

(** The screen is on page [i] of the three. *)
Definition index_of (sc : Screen) : Z :=
  match sc with
  | Main => 0
  | WeatherDetail => 1
  | Calendar => 2
  end.

(** What no handler changes: the key, the pages of the stack (the index
    stays on one of them), and, for want of a key, the detail label. *)
Definition kept (s s' : state) : Prop :=
  api_key (self s') = api_key (self s)
  /\ (three_pages (stack (self s)) -> three_pages (stack (self s')))
  /\ (Py.truthy (api_key (self s)) = false ->
      weather_info (self s') = weather_info (self s)).

(** The states of a dashboard created at size [w] x [h]: the one
    [__init__] returns, and those the handlers of its events lead to. *)
Inductive reachable (w h : Z) : state -> Prop :=
| reach_init (w0 : World) (d : t) (w1 : World) :
    init w h w0 = (Py.Ok d, w1) -> reachable w h (mk_state d w1)
| reach_event (s : state) (e : event) :
    reachable w h s -> reachable w h (snd (handle e s)).

(** A decimal digit and its value. *)
Definition digit_val (a : ascii) : option Z :=
  let n := Z.of_nat (nat_of_ascii a) in
  if (48 <=? n) && (n <=? 57) then Some (n - 48) else None.

Definition number2 (a b : ascii) : option Z :=
  match digit_val a, digit_val b with
  | Some x, Some y => Some (10 * x + y)
  | _, _ => None
  end.

(** The month, the day and the year a text of the form [MM/DD/YYYY]
    spells. *)
Definition read_mdY (text : string) : option (Z * Z * Z) :=
  match text with
  | String m1 (String m2 (String "/" (String d1 (String d2 (String "/"
      (String y1 (String y2 (String y3 (String y4 EmptyString))))))))) =>
      match number2 m1 m2, number2 d1 d2, number2 y1 y2, number2 y3 y4 with
      | Some m, Some d, Some hi, Some lo => Some (m, d, 100 * hi + lo)
      | _, _, _, _ => None
      end
  | _ => None
  end.

(** [pad2 z] is two digits that spell [z]; the year is four. *)
Definition pad2_reads_back (z : Z) : bool :=
  match pad2 z with
  | String a (String b EmptyString) =>
      match number2 a b with
      | Some v => v =? z
      | None => false
      end
  | _ => false
  end.

Definition year_reads_back (y : Z) : bool :=
  (y <? 1000)
  || match Py.str_of_Z y with
     | String a (String b (String c (String d EmptyString))) =>
         match number2 a b, number2 c d with
         | Some hi, Some lo => 100 * hi + lo =? y
         | _, _ => false
         end
     | _ => false
     end.

(** The button of the background says what the background does. *)
Definition label_agrees (d : t) : Prop :=
  matrix_btn d
  = if MatrixBackground.running (matrix_bg d) then "Matrix ON" else "Matrix OFF".


(** The timeout of the weather timer. *)
Definition is_refresh (e : event) : bool :=
  match e with
  | WeatherTimeout => true
  | _ => false
  end.

(** What [load_weather_key] returns in [s]. *)
Definition loaded_key (s : state) : Py.pyval * Py.pyval :=
  match fst (load_weather_key s) with
  | Py.Ok kl => kl
  | Py.Raise _ => (Py.PyNone, Py.PyNone)
  end.

(** The dashboard in [__init__] when [update_weather] is called: the
    key is loaded, the screens are built and the date is set. *)
Definition before_first_refresh (w h : Z) (w0 : World) : state :=
  let '(m, g) := build_background w h (gen w0) in
  let stacked := QStackedWidget.addWidget Calendar
                   (QStackedWidget.addWidget WeatherDetail
                      (QStackedWidget.addWidget Main QStackedWidget.new)) in
  let s0 := mk_state (mk Py.PyNone Py.PyNone stacked "Loading…" "00/00/0000"
                         "Loading…" "Matrix ON" m false)
                     (mk_world g (requests w0) (clock_reads w0)) in
  let kl := loaded_key s0 in
  mk_state (mk (fst kl) (snd kl) stacked "Loading…"
               (strftime_mdY (datetime_now (clock_reads w0)))
               "Loading…" "Matrix ON" m false)
           (mk_world g (requests w0) (S (clock_reads w0))).

End WithHost.
End Dashboard.

(* ================================================================== *)
(** * Hosts to run the model on *)
(* ================================================================== *)

(** A host whose key file opens as [cfg], whose server always gives
    [answer] and whose clock stands at [t]. *)
Definition sample_host (cfg : Py.result file) (answer : Py.result response)
  (t : datetime) : Host := {|
  host_random := lcg;
  container_repr := fun _ => "";
  open_ := fun _ => cfg;
  requests_get := fun _ _ => answer;
  datetime_now := fun _ => t
|}.

(** [72.5], which binary64 holds exactly. *)
Definition float_72_5 : spec_float := S754_finite false 5101733952880640 (-46).

(** [{"current": {"temp_f": 72.5, "condition": {"text": "Sunny"}}}] *)
Definition sunny_body : Py.pyval :=
  Py.PyDict [("current",
              Py.PyDict [("temp_f", Py.PyFloat float_72_5);
                         ("condition", Py.PyDict [("text", Py.PyStr "Sunny")])])].

(** The same answer without its [condition] key. *)
Definition no_condition_body : Py.pyval :=
  Py.PyDict [("current", Py.PyDict [("temp_f", Py.PyFloat float_72_5)])].

(** [{"api_key": "k3y", "location": "Paris"}] *)
Definition key_file : file :=
  {| json_load := Py.Ok (Py.PyDict [("api_key", Py.PyStr "k3y");
                                    ("location", Py.PyStr "Paris")]) |}.

Definition noon : datetime := mk_datetime 2024 5 17 12 0 0.
Definition three_o_clock : datetime := mk_datetime 2024 5 17 3 0 0.

(** A background of three columns at row 0, 36 pixels wide and 100 high. *)
Definition three_columns : MatrixBackground.t :=
  MatrixBackground.mk true ["#"; "$"; "%"] [0; 0; 0] 12 36 100.

(** A dashboard that holds [key] and [loc], on screen with its main
    page up. *)
Definition sample_dashboard (key loc : Py.pyval) : Dashboard.t :=
  Dashboard.mk key loc (QStackedWidget.mk [Main; WeatherDetail; Calendar] 0)
    "Loading…" "00/00/0000" "Loading…" "Matrix ON" three_columns true.

Definition fresh_world (H : Host) (g : @rng (@host_random H)) : @Dashboard.World H :=
  @Dashboard.mk_world H g [] 0%nat.

Definition sample_state (H : Host) (g : @rng (@host_random H)) (key loc : Py.pyval)
  : @Dashboard.state H :=
  Dashboard.mk_state (sample_dashboard key loc) (fresh_world H g).

(** The dashboard with the key of [key_file], and without a key. *)
Definition keyed (H : Host) (g : @rng (@host_random H)) : @Dashboard.state H :=
  sample_state H g (Py.PyStr "k3y") (Py.PyStr "Paris").

Definition keyless (H : Host) (g : @rng (@host_random H)) : @Dashboard.state H :=
  sample_state H g Py.PyNone Py.PyNone.

(** A server that answers 200 and the sunny body; one that answers the
    same body with status 500; one whose answer lacks [condition]; and a
    machine without key file. *)
Definition sunny_host : Host :=
  sample_host (Py.Ok key_file)
    (Py.Ok {| status_code := 200; json := Py.Ok sunny_body |}) noon.

Definition server_error_host : Host :=
  sample_host (Py.Ok key_file)
    (Py.Ok {| status_code := 500; json := Py.Ok sunny_body |}) noon.

Definition no_condition_host : Host :=
  sample_host (Py.Ok key_file)
    (Py.Ok {| status_code := 200; json := Py.Ok no_condition_body |}) noon.

Definition no_file_host : Host :=
  sample_host (Py.Raise Py.OSError) (Py.Raise Py.RequestException) noon.


Definition null_temp_host : Host :=
  sample_host (Py.Ok key_file)
    (Py.Ok {| status_code := 200;
              json := Py.Ok (Py.PyDict
                               [("current",
                                 Py.PyDict [("temp_f", Py.PyNone);
                                            ("condition",
                                             Py.PyDict [("text", Py.PyStr "Sunny")])])]) |})
    noon.

Definition empty_key_file : file :=
  {| json_load := Py.Ok (Py.PyDict [("api_key", Py.PyStr "");
                                    ("location", Py.PyStr "Paris")]) |}.

Definition empty_key_host : Host :=
  sample_host (Py.Ok empty_key_file)
    (Py.Ok {| status_code := 200; json := Py.Ok sunny_body |}) noon.

(** The state [__init__] returns on [H], if it returns. *)
Definition boot (H : Host) (w h : Z) (w0 : @Dashboard.World H)
  : option (@Dashboard.state H) :=
  match Dashboard.init w h w0 with
  | (Py.Ok d, w1) => Some (Dashboard.mk_state d w1)
  | (Py.Raise _, _) => None
  end.

(* ================================================================== *)
(** * Properties of the background effect *)
(* ================================================================== *)
Section MatrixBackgroundProperties.
Context {R : Random}.
Import MatrixBackground.

Lemma step_column_exact (m : t) (i col : Z) (g : rng) :
  let g1 := snd (random_choice "" (chars m) g) in
  let r := fst (random_random g1) in
  fst (fst (step_column m i col g)) =
    if (col * font_size m >? height m) && Py.fgt r threshold then 0 else col + 1.
Proof.
  unfold step_column.
  destruct (random_choice "" (chars m) g) as [char g1]; cbn [snd].
  destruct (col * font_size m >? height m); cbn [andb].
  - destruct (random_random g1) as [r g2]; cbn [fst].
    destruct (Py.fgt r threshold); reflexivity.
  - reflexivity.
Qed.

Lemma step_column_step (m : t) (i col : Z) (g : rng) :
  column_step m col (fst (fst (step_column m i col g))).
Proof.
  rewrite step_column_exact.
  destruct (col * font_size m >? height m) eqn:Hbelow; cbn [andb].
  - destruct (Py.fgt _ threshold).
    + apply step_reset; [unfold below_widget; apply Z.gtb_lt, Hbelow | reflexivity].
    + apply step_advance; reflexivity.
  - apply step_advance; reflexivity.
Qed.

Lemma paint_columns_step (m : t) (cols : list Z) :
  forall i g, Forall2 (column_step m) cols (fst (fst (paint_columns m i cols g))).
Proof.
  induction cols as [|col rest IH]; intros i g; cbn [paint_columns].
  - constructor.
  - pose proof (step_column_step m i col g) as Hstep.
    destruct (step_column m i col g) as [[col' g1] op]; cbn [fst] in Hstep.
    specialize (IH (i + 1) g1).
    destruct (paint_columns m (i + 1) rest g1) as [[rest' g2] ops]; cbn [fst] in *.
    constructor; assumption.
Qed.

Lemma column_step_nonneg (m : t) (col col' : Z) :
  column_step m col col' -> 0 <= col -> 0 <= col'.
Proof. intros [_ ->| ->] Hcol; lia. Qed.

Lemma Forall2_nonneg (m : t) (cols cols' : list Z) :
  Forall2 (column_step m) cols cols' ->
  Forall (fun r => 0 <= r) cols -> Forall (fun r => 0 <= r) cols'.
Proof.
  induction 1 as [|col col' rest rest' Hstep _ IH]; intros Hall.
  - constructor.
  - inversion Hall; subst. constructor; [eapply column_step_nonneg; eauto | auto].
Qed.

Lemma paintEvent_columns (m : t) (g : rng) :
  running m = true ->
  columns (fst (fst (paintEvent m g))) = fst (fst (paint_columns m 0 (columns m) g)).
Proof.
  intros Hrun. unfold paintEvent. rewrite Hrun; cbn [negb].
  destruct (paint_columns m 0 (columns m) g) as [[cols g'] ops]. reflexivity.
Qed.

Lemma paintEvent_off (m : t) (g : rng) :
  running m = false -> paintEvent m g = (m, g, []).
Proof. intros Hoff. unfold paintEvent. rewrite Hoff. reflexivity. Qed.

Lemma paintEvent_nonneg (m : t) (g : rng) :
  Forall (fun r => 0 <= r) (columns m) ->
  Forall (fun r => 0 <= r) (columns (fst (fst (paintEvent m g)))).
Proof.
  intros Hall. destruct (running m) eqn:Hrun.
  - rewrite paintEvent_columns by assumption.
    eapply Forall2_nonneg; [apply paint_columns_step | exact Hall].
  - rewrite paintEvent_off by assumption. exact Hall.
Qed.

Lemma ticks_nonneg (n : nat) :
  forall m g, Forall (fun r => 0 <= r) (columns m) ->
              Forall (fun r => 0 <= r) (columns (fst (ticks n m g))).
Proof.
  induction n as [|n IH]; intros m g Hall; cbn [ticks].
  - exact Hall.
  - pose proof (paintEvent_nonneg m g Hall) as Hnext.
    destruct (paintEvent m g) as [[m' g'] ops]; cbn [fst] in Hnext.
    apply IH, Hnext.
Qed.

Lemma ticks_off (n : nat) (m : t) (g : rng) :
  running m = false -> ticks n m g = (m, g).
Proof.
  intros Hoff. induction n as [|n IH]; cbn [ticks].
  - reflexivity.
  - rewrite paintEvent_off by assumption. exact IH.
Qed.

(** C4: rows that start at 0 (or anywhere from 0 up) are never negative,
    however many ticks are applied; a tick of the running effect takes
    each row either to 0, which needs the row's pixel position [row *
    cell size] to exceed the height strictly, or to the next row; and row
    by row, the reset happens exactly when the position is past the height
    and the draw of [random.random()] is above 0.975. *)
Theorem matrix_rows_nonnegative_and_step (m : t) (g : rng) (n : nat) :
  Forall (fun r => 0 <= r) (columns m) ->
  Forall (fun r => 0 <= r) (columns (fst (ticks n m g)))
  /\ (running m = true ->
      Forall2 (column_step m) (columns m) (columns (fst (fst (paintEvent m g)))))
  /\ (forall i col g0,
        let r := fst (random_random (snd (random_choice "" (chars m) g0))) in
        fst (fst (step_column m i col g0)) =
          if (col * font_size m >? height m) && Py.fgt r threshold then 0 else col + 1).
Proof.
  intros Hall. split; [|split].
  - apply ticks_nonneg, Hall.
  - intros Hrun. rewrite paintEvent_columns by assumption. apply paint_columns_step.
  - intros i col g0. apply step_column_exact.
Qed.

(** C5: two toggles give back the widget as it was, flag and columns;
    one toggle flips the flag and leaves the columns alone; while the
    effect is off a tick changes nothing (the widget and the generator
    are what they were), whatever state [m] it was stopped in; so an effect
    that is stopped, ticked [n] times and started again has the columns it
    had, and its next tick repaints exactly as the tick it missed would
    have. *)
Theorem matrix_toggle_twice_and_resume (m : t) (g : rng) (n : nat) :
  toggle (toggle m) = m
  /\ running (toggle (toggle m)) = running m
  /\ running (toggle m) = negb (running m)
  /\ columns (toggle m) = columns m
  /\ (let off := set_running false m in
      paintEvent off g = (off, g, []) /\ ticks n off g = (off, g))
  /\ (let on := set_running true m in
      let '(off, g') := ticks n (toggle on) g in
      g' = g
      /\ running off = false
      /\ columns off = columns on
      /\ toggle off = on
      /\ paintEvent (toggle off) g' = paintEvent on g).
Proof.
  assert (Htwice : toggle (toggle m) = m).
  { destruct m as [run cs cols fs w h]. unfold toggle, set_running. cbn.
    rewrite negb_involutive. reflexivity. }
  split; [exact Htwice|]. split; [rewrite Htwice; reflexivity|].
  split; [reflexivity|]. split; [reflexivity|]. split.
  - cbv zeta. split; [apply paintEvent_off | apply ticks_off]; reflexivity.
  - cbv zeta.
    rewrite (ticks_off n (toggle (set_running true m)) g eq_refl).
    repeat split.
Qed.

Lemma random_rows_length (n : nat) :
  forall g, List.length (fst (random_rows n g)) = n.
Proof.
  induction n as [|n IH]; intros g; cbn [random_rows].
  - reflexivity.
  - destruct (random_randint 0 20 g) as [r g1].
    specialize (IH g1). destruct (random_rows n g1) as [rs g2].
    cbn [fst List.length] in *. congruence.
Qed.

Lemma random_randint_range (a b : Z) (g : rng) :
  randbelow_in_range R -> a <= b ->
  a <= fst (random_randint a b g) <= b.
Proof.
  intros Hrange Hab. unfold random_randint.
  pose proof (Hrange (b + 1 - a) g ltac:(lia)) as Hr.
  destruct (randbelow (b + 1 - a) g) as [r g']; cbn [fst] in *. lia.
Qed.

Lemma random_rows_range (n : nat) :
  randbelow_in_range R ->
  forall g, Forall (fun r => 0 <= r <= 20) (fst (random_rows n g)).
Proof.
  intros Hrange. induction n as [|n IH]; intros g; cbn [random_rows].
  - constructor.
  - pose proof (random_randint_range 0 20 g Hrange ltac:(lia)) as Hr.
    destruct (random_randint 0 20 g) as [r g1].
    specialize (IH g1). destruct (random_rows n g1) as [rs g2].
    cbn [fst] in *. constructor; assumption.
Qed.

Lemma resize_columns (w h : Z) (m : t) (g : rng) :
  columns (fst (resize w h m g))
  = fst (random_rows (Z.to_nat ((if w =? 0 then 400 else w) / 12)) g)
  /\ font_size (fst (resize w h m g)) = 12.
Proof.
  unfold resize, resizeEvent, init_columns. cbn [width set_geometry].
  destruct (random_rows _ g) as [cols g']. split; reflexivity.
Qed.

(** C8, amended: a resize lays the columns out again, as many as the
    width divided by the cell size 12 (integer division) when the width is
    not zero, and 33 of them, those of a width of 400, when it is zero;
    every column starts at a row drawn between 0 and 20. *)
Theorem matrix_resize_columns (w h : Z) (m : t) (g : rng) :
  randbelow_in_range R ->
  0 <= w ->
  let m' := fst (resize w h m g) in
  font_size m' = 12
  /\ (w <> 0 -> Z.of_nat (List.length (columns m')) = w / 12)
  /\ (w = 0 -> Z.of_nat (List.length (columns m')) = 400 / 12)
  /\ Forall (fun r => 0 <= r <= 20) (columns m').
Proof.
  intros Hrange Hw. cbv zeta.
  destruct (resize_columns w h m g) as [-> ->].
  rewrite random_rows_length.
  split; [reflexivity|]. split; [|split].
  - intros Hnz. apply Z.eqb_neq in Hnz. rewrite Hnz.
    apply Z2Nat.id, Z.div_pos; lia.
  - intros ->. reflexivity.
  - apply random_rows_range, Hrange.
Qed.

End MatrixBackgroundProperties.

(* ================================================================== *)
(** * Properties of the analog clock *)
(* ================================================================== *)
Section AnalogClockProperties.
Import AnalogClock.

(** The picture: the face, the twelve marks, then one line per hand,
    each turned by its own angle from the frame of the dial; the clock is
    read once. *)
Lemma paintEvent_hands (width height : Z) (clock : nat -> datetime) (reads : nat) :
  let shapes := fst (paintEvent width height clock reads) in
  let now := clock reads in
  snd (paintEvent width height clock reads) = S reads
  /\ lines_with (QPen "#00aaff" 6) shapes
     = [((dial_frame width height ++ [Rotate (hour_rotation now)])%list, (0, 0, 0, -70))]
  /\ lines_with (QPen "white" 4) shapes
     = [((dial_frame width height ++ [Rotate (minute_rotation now)])%list, (0, 0, 0, -100))]
  /\ lines_with (QPen "red" 2) shapes
     = [((dial_frame width height ++ [Rotate (second_rotation now)])%list, (0, 10, 0, -120))].
Proof.
  cbv zeta. split; [|split; [|split]]; reflexivity.
Qed.

Lemma dial_frame_full_turn (width height : Z) :
  (degrees (dial_frame width height) == 360)%Q.
Proof.
  unfold dial_frame, degrees. cbn [app fold_right repeat].
  vm_compute. reflexivity.
Qed.

Lemma in_zrange (n : nat) (z : Z) : 0 <= z < Z.of_nat n -> In z (zrange n).
Proof.
  intros Hz. unfold zrange. apply in_map_iff.
  exists (Z.to_nat z). split; [lia|]. apply in_seq. lia.
Qed.

Lemma forallb_zrange (f : Z -> bool) (n : nat) :
  forallb f (zrange n) = true -> forall z, 0 <= z < Z.of_nat n -> f z = true.
Proof.
  intros Hall z Hz. rewrite forallb_forall in Hall. apply Hall, in_zrange, Hz.
Qed.

(** Every minute of the day, every second of the hour, every second of
    the minute: checked one by one. *)
Lemma all_hours_ok :
  forallb (fun h => forallb (hour_ok h) (zrange 60)) (zrange 24) = true.
Proof. vm_compute. reflexivity. Qed.

Lemma all_minutes_ok :
  forallb (fun m => forallb (minute_ok m) (zrange 60)) (zrange 60) = true.
Proof. vm_compute. reflexivity. Qed.

Lemma all_seconds_ok : forallb second_ok (zrange 60) = true.
Proof. vm_compute. reflexivity. Qed.

Lemma hour_rotation_ok (t : datetime) :
  valid_time t -> hour_ok (hour t) (minute t) = true.
Proof.
  intros (Hh & Hm & _).
  apply (forallb_zrange (hour_ok (hour t)) 60); [|exact Hm].
  apply (forallb_zrange (fun h => forallb (hour_ok h) (zrange 60)) 24 all_hours_ok).
  exact Hh.
Qed.

Lemma minute_rotation_ok (t : datetime) :
  valid_time t -> minute_ok (minute t) (second t) = true.
Proof.
  intros (_ & Hm & Hs).
  apply (forallb_zrange (minute_ok (minute t)) 60); [|exact Hs].
  apply (forallb_zrange (fun m => forallb (minute_ok m) (zrange 60)) 60 all_minutes_ok).
  exact Hm.
Qed.

Lemma second_rotation_ok (t : datetime) :
  valid_time t -> second_ok (second t) = true.
Proof.
  intros (_ & _ & Hs). apply (forallb_zrange second_ok 60 all_seconds_ok), Hs.
Qed.

Lemma near_spec (a : spec_float) (x : Q) :
  near a x = true ->
  Py.is_finite a = true /\ (Qabs (Py.SF2Q a - x) <= tolerance)%Q.
Proof.
  unfold near. intros H. apply andb_true_iff in H as [Hfin Hle].
  split; [exact Hfin | apply Qle_bool_iff, Hle].
Qed.

Lemma same_float_eq (a b : spec_float) : same_float a b = true -> a = b.
Proof.
  destruct a as [s|s| |s m e], b as [s'|s'| |s' m' e']; cbn [same_float];
    try discriminate; try reflexivity.
  - intros Hs. apply Bool.eqb_prop in Hs. congruence.
  - intros Hs. apply Bool.eqb_prop in Hs. congruence.
  - intros Hall. apply andb_true_iff in Hall as [Hsm He].
    apply andb_true_iff in Hsm as [Hs Hm].
    apply Bool.eqb_prop in Hs. apply Pos.eqb_eq in Hm. apply Z.eqb_eq in He.
    congruence.
Qed.

(** C2: for every time sample, taken once per paint, the three hands
    are painted at exactly the values of the three formulas, as the
    program's language computes them: the hour hand at [30 * (hour mod 12
    + minute/60)], the minute hand at [6 * (minute + second/60)], the
    second hand at [6 * second], all from the one sample; 03:00:00 gives
    90, 0 and 0.  The values are binary64 numbers, within 10^-13 of a
    degree of the real numbers the formulas denote, and equal to them for
    the second hand and on the full hour and minute. *)
Theorem clock_hand_angles (width height : Z) (clock : nat -> datetime) (reads : nat) :
  valid_time (clock reads) ->
  hands_as_specified width height clock reads.
Proof.
  intros Hvalid. unfold hands_as_specified. cbv zeta.
  destruct (paintEvent_hands width height clock reads) as (Hreads & Hh & Hm & Hs).
  cbv zeta in Hh, Hm, Hs.
  pose proof (hour_rotation_ok _ Hvalid) as Hhour.
  pose proof (minute_rotation_ok _ Hvalid) as Hmin.
  pose proof (second_rotation_ok _ Hvalid) as Hsec.
  unfold hour_ok in Hhour. unfold minute_ok in Hmin. unfold second_ok in Hsec.
  apply andb_true_iff in Hhour as [Hhnear Hhexact].
  apply andb_true_iff in Hmin as [Hmnear Hmexact].
  apply andb_true_iff in Hsec as [Hsec Hsexact].
  apply andb_true_iff in Hsec as [Hssame Hsfin].
  apply near_spec in Hhnear as [Hhfin Hhnear].
  apply near_spec in Hmnear as [Hmfin Hmnear].
  apply same_float_eq in Hssame.
  assert (Hhsame : hour_angle (hour (clock reads)) (minute (clock reads))
                   = spec_hour_float (hour (clock reads)) (minute (clock reads)))
    by reflexivity.
  assert (Hmsame : minute_angle (minute (clock reads)) (second (clock reads))
                   = spec_minute_float (minute (clock reads)) (second (clock reads)))
    by reflexivity.
  rewrite Hhsame in Hhfin, Hhnear, Hhexact.
  rewrite Hmsame in Hmfin, Hmnear, Hmexact.
  rewrite Hssame in Hsfin, Hsexact.
  fold (hour_rotation (clock reads)) in Hhsame.
  fold (minute_rotation (clock reads)) in Hmsame.
  fold (second_rotation (clock reads)) in Hssame.
  rewrite Hhsame in Hh. rewrite Hmsame in Hm. rewrite Hssame in Hs.
  split; [exact Hreads|]. split; [apply dial_frame_full_turn|].
  split; [exact Hh|]. split; [exact Hm|]. split; [exact Hs|].
  split.
  { intros H3 H0 H0'. rewrite H3, H0, H0'. vm_compute. repeat split. }
  split; [exact Hhfin|]. split; [exact Hmfin|]. split; [exact Hsfin|].
  split; [exact Hhnear|]. split; [exact Hmnear|].
  split; [apply Qeq_bool_iff, Hsexact|].
  split.
  - intros Hzero. rewrite Hzero in Hhexact. cbn [Z.eqb] in Hhexact.
    rewrite Hzero. apply Qeq_bool_iff, Hhexact.
  - intros Hzero. rewrite Hzero in Hmexact. cbn [Z.eqb] in Hmexact.
    rewrite Hzero. apply Qeq_bool_iff, Hmexact.
Qed.

End AnalogClockProperties.

Lemma float_72_5_repr : Py.float_repr float_72_5 = "72.5".
Proof. vm_compute. reflexivity. Qed.

(* ================================================================== *)
(** * Properties of the dashboard *)
(* ================================================================== *)
Section DashboardProperties.
Context {H : Host}.
Import Dashboard.

Local Open Scope py_scope.

Ltac run_monad :=
  unfold on_self, requests_get_, now_ in *;
  unfold Py.bind, Py.ret, Py.lift, Py.gets, Py.modify, Py.try_except,
    Py.try_except_Exception in *.

Lemma getitem_not_dict (v : Py.pyval) (key : string) :
  (forall d, v <> Py.PyDict d) -> Py.getitem v key = Py.Raise Py.TypeError.
Proof.
  intros Hnot. destruct v; try reflexivity. exfalso. eapply Hnot. reflexivity.
Qed.

Lemma load_weather_key_returns (s : state) :
  exists kl, load_weather_key s = (Py.Ok kl, s).
Proof.
  unfold load_weather_key. run_monad.
  destruct (open_ "Wapi.json") as [f|e]; [|eauto].
  destruct (json_load f) as [data|e]; [|eauto].
  destruct (Py.getitem data "api_key") as [k|e]; [|eauto].
  destruct (Py.getitem data "location") as [l|e]; eauto.
Qed.

Lemma load_weather_key_problem (s : state) :
  config_problem -> load_weather_key s = (Py.Ok (Py.PyNone, Py.PyNone), s).
Proof.
  intros Hproblem. unfold load_weather_key. run_monad.
  destruct Hproblem as [e Ho | f e Ho Hj | f data Ho Hj Hnot | f d key Ho Hj Hkey Hnone];
    rewrite Ho; try rewrite Hj; try reflexivity.
  - rewrite (getitem_not_dict data "api_key" Hnot). reflexivity.
  - destruct Hkey as [-> | ->]; cbn [Py.getitem]; rewrite ?Hnone; try reflexivity.
    destruct (Py.lookup "api_key" d); reflexivity.
Qed.

Lemma update_weather_no_key (s : state) :
  Py.truthy (api_key (self s)) = false ->
  update_weather s = (Py.Ok tt, disabled s).
Proof.
  intros Hkey. unfold update_weather. run_monad. rewrite Hkey. reflexivity.
Qed.

Lemma update_weather_get_raises (s : state) (e : Py.exn) :
  Py.truthy (api_key (self s)) = true ->
  answer s = Py.Raise e ->
  update_weather s =
    if Py.is_Exception e
    then (Py.Ok tt, with_texts "Err" "Weather load error" (requested s))
    else (Py.Raise e, requested s).
Proof.
  intros Hkey Hanswer. unfold answer in Hanswer.
  unfold update_weather. run_monad. rewrite Hkey. cbn [negb self world].
  rewrite Hanswer. destruct (Py.is_Exception e); reflexivity.
Qed.

Lemma update_weather_json_raises (s : state) (resp : response) (e : Py.exn) :
  Py.truthy (api_key (self s)) = true ->
  answer s = Py.Ok resp ->
  json resp = Py.Raise e ->
  update_weather s =
    if Py.is_Exception e
    then (Py.Ok tt, with_texts "Err" "Weather load error" (requested s))
    else (Py.Raise e, requested s).
Proof.
  intros Hkey Hanswer Hjson. unfold answer in Hanswer.
  unfold update_weather. run_monad. rewrite Hkey. cbn [negb self world].
  rewrite Hanswer, Hjson. destruct (Py.is_Exception e); reflexivity.
Qed.

Lemma getitem_raises_Exception (v : Py.pyval) (key : string) (e : Py.exn) :
  Py.getitem v key = Py.Raise e -> Py.is_Exception e = true.
Proof.
  destruct v; cbn [Py.getitem]; try (intros [= <-]; reflexivity).
  destruct (Py.lookup key d); [discriminate | intros [= <-]; reflexivity].
Qed.

Lemma extract_raises_Exception (r : Py.pyval) (e : Py.exn) :
  extract r = Py.Raise e -> Py.is_Exception e = true.
Proof.
  unfold extract.
  destruct (Py.getitem r "current") as [cur|e1] eqn:H1;
    [|intros [= <-]; eapply getitem_raises_Exception; eassumption].
  destruct (Py.getitem cur "temp_f") as [temp_f|e2] eqn:H2;
    [|intros [= <-]; eapply getitem_raises_Exception; eassumption].
  destruct (Py.getitem cur "condition") as [cond|e3] eqn:H3;
    [|intros [= <-]; eapply getitem_raises_Exception; eassumption].
  destruct (Py.getitem cond "text") as [condition|e4] eqn:H4;
    [discriminate | intros [= <-]; eapply getitem_raises_Exception; eassumption].
Qed.

(** The two subscript chains succeed exactly on answers of the expected
    shape. *)
Lemma extract_has_fields (r : Py.pyval) :
  has_fields r = true <-> exists tc, extract r = Py.Ok tc.
Proof.
  unfold has_fields, extract.
  destruct r as [| | | | |l|d]; cbn [Py.getitem];
    try (split; [discriminate | intros [tc Htc]; discriminate]).
  destruct (Py.lookup "current" d) as [cur|];
    [|split; [discriminate | intros [tc Htc]; discriminate]].
  destruct cur as [| | | | |l|cur]; cbn [Py.getitem];
    try (split; [discriminate | intros [tc Htc]; discriminate]).
  destruct (Py.lookup "temp_f" cur) as [temp_f|];
    [|split; [discriminate | intros [tc Htc]; discriminate]].
  destruct (Py.lookup "condition" cur) as [cond|];
    [|split; [discriminate | intros [tc Htc]; discriminate]].
  destruct cond as [| | | | |l|cond]; cbn [Py.getitem];
    try (split; [discriminate | intros [tc Htc]; discriminate]).
  destruct (Py.lookup "text" cond) as [condition|];
    [split; eauto | split; [discriminate | intros [tc Htc]; discriminate]].
Qed.

Lemma update_weather_extract (s : state) (resp : response) (r : Py.pyval) :
  Py.truthy (api_key (self s)) = true ->
  answer s = Py.Ok resp ->
  json resp = Py.Ok r ->
  update_weather s =
    match extract r with
    | Py.Ok (temp_f, condition) =>
        (Py.Ok tt, with_texts (fst (populated_texts temp_f condition))
                              (snd (populated_texts temp_f condition)) (requested s))
    | Py.Raise _ =>
        (Py.Ok tt, with_texts "Err" "Weather load error" (requested s))
    end.
Proof.
  intros Hkey Hanswer Hjson. unfold answer in Hanswer.
  unfold update_weather. run_monad. rewrite Hkey. cbn [negb self world].
  rewrite Hanswer, Hjson.
  destruct (extract r) as [[temp_f condition]|e] eqn:Hextract.
  - reflexivity.
  - rewrite (extract_raises_Exception r e Hextract). reflexivity.
Qed.

(** Whatever happens, a refresh leaves the dashboard as it was, as it
    was with the request logged, or so with the two labels rewritten, or
    with the summary reading "No API". *)
Lemma update_weather_outcome (s : state) :
  exists r s',
    update_weather s = (r, s')
    /\ (s' = disabled s /\ Py.truthy (api_key (self s)) = false
        \/ Py.truthy (api_key (self s)) = true
           /\ (s' = requested s
               \/ exists summary detail, s' = with_texts summary detail (requested s))).
Proof.
  destruct (Py.truthy (api_key (self s))) eqn:Hkey.
  - destruct (answer s) as [resp|e] eqn:Hanswer.
    + destruct (json resp) as [r|e] eqn:Hjson.
      * rewrite (update_weather_extract s resp r Hkey Hanswer Hjson).
        destruct (extract r) as [[temp_f condition]|e]; eauto 10.
      * rewrite (update_weather_json_raises s resp e Hkey Hanswer Hjson).
        destruct (Py.is_Exception e); eauto 10.
    + rewrite (update_weather_get_raises s e Hkey Hanswer).
      destruct (Py.is_Exception e); eauto 10.
  - rewrite (update_weather_no_key s Hkey). eauto 10.
Qed.

(** C1, amended: with a key, a refresh whose request raises, whose body
    is not JSON or whose JSON lacks an expected field returns normally
    and leaves both surfaces in the error state, the summary on "Err" and
    the detail on "Weather load error", whatever the status of the answer
    (a status outside 2xx is not by itself a failure). *)
Theorem weather_failure_shows_error (s : state) :
  Py.truthy (api_key (self s)) = true ->
  fetch_failure s ->
  update_weather s = (Py.Ok tt, with_texts "Err" "Weather load error" (requested s))
  /\ temp_btn (self (snd (update_weather s))) = "Err"
  /\ weather_info (self (snd (update_weather s))) = "Weather load error".
Proof.
  intros Hkey Hfail.
  assert (Hrun : update_weather s
                 = (Py.Ok tt, with_texts "Err" "Weather load error" (requested s))).
  { destruct Hfail as [e Ha He | resp e Ha Hj He | resp r Ha Hj Hf].
    - rewrite (update_weather_get_raises s e Hkey Ha), He. reflexivity.
    - rewrite (update_weather_json_raises s resp e Hkey Ha Hj), He. reflexivity.
    - rewrite (update_weather_extract s resp r Hkey Ha Hj).
      destruct (extract r) as [tc|e] eqn:Hextract; [|reflexivity].
      assert (Htrue : has_fields r = true) by (apply extract_has_fields; eauto).
      congruence. }
  rewrite Hrun. repeat split.
Qed.

(** C7: on the body [{"current": {"temp_f": 72.5, "condition": {"text":
    "Sunny"}}}] the two values read are 72.5 and "Sunny", the summary
    becomes exactly "72.5°F" and the detail holds both the temperature and
    the condition. *)
Theorem weather_sunny_refresh (s : state) (resp : response) :
  Py.truthy (api_key (self s)) = true ->
  answer s = Py.Ok resp ->
  json resp = Py.Ok sunny_body ->
  extract sunny_body = Py.Ok (Py.PyFloat float_72_5, Py.PyStr "Sunny")
  /\ (Py.SF2Q float_72_5 == 145 # 2)%Q
  /\ fst (update_weather s) = Py.Ok tt
  /\ temp_btn (self (snd (update_weather s))) = "72.5°F"
  /\ weather_info (self (snd (update_weather s)))
     = "Temperature: 72.5°F" ++ nl ++ "Condition: Sunny"
  /\ contains "72.5" (weather_info (self (snd (update_weather s)))) = true
  /\ contains "Sunny" (weather_info (self (snd (update_weather s)))) = true.
Proof.
  intros Hkey Hanswer Hjson.
  rewrite (update_weather_extract s resp sunny_body Hkey Hanswer Hjson).
  split; [reflexivity|]. split; [reflexivity|].
  change (extract sunny_body) with (Py.Ok (Py.PyFloat float_72_5, Py.PyStr "Sunny")).
  cbn [fst snd with_texts self weather_info temp_btn set_weather_info set_temp_btn
       populated_texts Py.py_str].
  rewrite float_72_5_repr.
  repeat split.
Qed.

(** ** No key *)

Lemma disabled_idempotent (s : state) : disabled (disabled s) = disabled s.
Proof. reflexivity. Qed.

Lemma refreshes_no_key (n : nat) :
  forall s, Py.truthy (api_key (self s)) = false ->
            refreshes n s = repeat (Py.Ok tt, disabled s) n.
Proof.
  induction n as [|n IH]; intros s Hkey; cbn [refreshes repeat].
  - reflexivity.
  - rewrite (update_weather_no_key s Hkey). cbn [snd].
    rewrite (IH (disabled s) Hkey), disabled_idempotent. reflexivity.
Qed.

(** C3: without a key, every one of [n] refreshes in a row returns
    normally with the same state, the one whose summary reads "No API",
    and the log of requests sent stays what it was: nothing goes out. *)
Theorem no_key_no_request (s : state) (n : nat) :
  Py.truthy (api_key (self s)) = false ->
  refreshes n s = repeat (Py.Ok tt, disabled s) n
  /\ List.length (refreshes n s) = n
  /\ temp_btn (self (disabled s)) = "No API"
  /\ Forall (fun rs => fst rs = Py.Ok tt
                       /\ temp_btn (self (snd rs)) = "No API"
                       /\ requests (world (snd rs)) = requests (world s))
            (refreshes n s).
Proof.
  intros Hkey. rewrite (refreshes_no_key n s Hkey).
  split; [reflexivity|]. split; [apply repeat_length|]. split; [reflexivity|].
  apply Forall_forall. intros rs Hin. apply repeat_spec in Hin. subst rs.
  repeat split.
Qed.

Lemma setCurrentIndex_three_pages (i : Z) (st : QStackedWidget.t) :
  three_pages st -> three_pages (QStackedWidget.setCurrentIndex i st).
Proof.
  intros [Hpages Hindex]. unfold QStackedWidget.setCurrentIndex.
  destruct ((0 <=? i) && (i <? Z.of_nat (List.length (QStackedWidget.pages st))))
    eqn:Hguard.
  - rewrite Hpages in Hguard.
    apply andb_true_iff in Hguard as [Hlo Hhi].
    apply Z.leb_le in Hlo. apply Z.ltb_lt in Hhi. cbn in Hhi.
    split; [exact Hpages | cbn; lia].
  - split; assumption.
Qed.

Lemma currentWidget_three_pages (st : QStackedWidget.t) :
  three_pages st -> exists sc, QStackedWidget.currentWidget st = Some sc.
Proof.
  intros [Hpages Hindex]. unfold QStackedWidget.currentWidget.
  destruct (QStackedWidget.currentIndex st <? 0) eqn:Hneg;
    [apply Z.ltb_lt in Hneg; lia|].
  rewrite Hpages.
  assert (Hcases : QStackedWidget.currentIndex st = 0
                   \/ QStackedWidget.currentIndex st = 1
                   \/ QStackedWidget.currentIndex st = 2) by lia.
  destruct Hcases as [Hi | [Hi | Hi]]; rewrite Hi; eexists; reflexivity.
Qed.

Lemma show_spec (sc : Screen) (s : state) :
  show sc s = (Py.Ok tt,
               mk_state (set_stack (QStackedWidget.setCurrentIndex (index_of sc)
                                      (stack (self s))) (self s)) (world s)).
Proof. destruct sc; reflexivity. Qed.

Lemma show_current (sc : Screen) (s : state) :
  three_pages (stack (self s)) ->
  current (self (snd (show sc s))) = Some sc.
Proof.
  intros [Hpages Hindex]. rewrite show_spec. cbn [snd self].
  unfold current. cbn [stack set_stack].
  unfold QStackedWidget.setCurrentIndex. rewrite Hpages.
  destruct sc; reflexivity.
Qed.

Ltac kept_by_frame :=
  unfold kept; cbn;
  split; [reflexivity | split; [auto | intros; first [reflexivity | congruence]]].

Lemma update_weather_kept (s : state) : kept s (snd (update_weather s)).
Proof.
  destruct (update_weather_outcome s) as (r & s' & Hrun & Hcases).
  rewrite Hrun. cbn [snd].
  destruct Hcases as [[-> Hkey] | [Hkey [-> | (summary & detail & ->)]]];
    kept_by_frame.
Qed.

Lemma show_kept (sc : Screen) (s : state) : kept s (snd (show sc s)).
Proof.
  rewrite show_spec. unfold kept. cbn.
  split; [reflexivity|]. split; [apply setCurrentIndex_three_pages | reflexivity].
Qed.

Lemma handle_kept (e : event) (s : state) : kept s (snd (handle e s)).
Proof.
  destruct e; cbn [handle].
  - unfold update_clock. run_monad. kept_by_frame.
  - apply update_weather_kept.
  - apply (show_kept WeatherDetail).
  - apply (show_kept Calendar).
  - apply (show_kept Main).
  - unfold toggle_matrix. run_monad. cbn.
    destruct (negb (MatrixBackground.running (matrix_bg (self s))));
      kept_by_frame.
  - unfold matrix_tick. destruct (shown (self s)); [|kept_by_frame].
    destruct (MatrixBackground.paintEvent _ _) as [[m g] ops].
    kept_by_frame.
  - unfold resizeEvent.
    destruct (MatrixBackground.setGeometry _ _ _ _ _) as [m g].
    kept_by_frame.
  - unfold showFullScreen. destruct (shown (self s)); [kept_by_frame|].
    destruct (MatrixBackground.resizeEvent _ _) as [m g].
    kept_by_frame.
Qed.

(** The dashboard as [__init__] leaves it, when it returns. *)
Lemma init_spec (w h : Z) (w0 : World) (d : t) (w1 : World) :
  init w h w0 = (Py.Ok d, w1) ->
  three_pages (stack d)
  /\ (Py.truthy (api_key d) = false ->
      weather_info d = "Loading…" /\ temp_btn d = "No API"
      /\ requests w1 = requests w0).
Proof.
  unfold init.
  destruct (build_background w h (gen w0)) as [m g].
  cbv zeta. unfold Py.bind at 1. cbv beta.
  match goal with
  | |- context [load_weather_key ?s0] => set (st0 := s0)
  end.
  destruct (load_weather_key_returns st0) as [kl Hkl]. rewrite Hkl.
  unfold update_clock. run_monad. subst st0.
  cbn [self world clock_reads requests gen].
  match goal with
  | |- context [update_weather ?s3] => set (st3 := s3)
  end.
  pose proof (update_weather_kept st3) as Hkept.
  destruct (update_weather_outcome st3) as (r & s' & Hrun & Hcases).
  rewrite Hrun in *.
  cbn [snd] in Hkept. destruct Hkept as (Hkey & Hpages & Hinfo).
  subst st3.
  cbn [self api_key stack weather_info set_date_btn] in Hkey, Hpages, Hinfo.
  destruct r as [[]|e]; [|discriminate].
  intros [= <- <-]. split.
  - apply Hpages. split; [reflexivity | cbn; lia].
  - intros Hfalsy. rewrite Hkey in Hfalsy.
    destruct Hcases as [[-> _] | [Htruthy _]];
      [|cbn [self api_key set_date_btn] in Htruthy; congruence].
    repeat split.
Qed.

Lemma reachable_invariant (w h : Z) (s : state) :
  reachable w h s ->
  three_pages (stack (self s))
  /\ (Py.truthy (api_key (self s)) = false -> weather_info (self s) = "Loading…").
Proof.
  induction 1 as [w0 d w1 Hinit | s e Hreach [IHpages IHinfo]].
  - destruct (init_spec w h w0 d w1 Hinit) as [Hpages Hinfo].
    split; [exact Hpages | intros Hkey; apply Hinfo, Hkey].
  - destruct (handle_kept e s) as (Hkey & Hpages & Hinfo).
    split; [apply Hpages, IHpages|].
    intros Hfalsy. rewrite Hkey in Hfalsy.
    rewrite (Hinfo Hfalsy). apply IHinfo, Hfalsy.
Qed.

(** C6: in every state the dashboard can be in, one of the three screens
    is the current one; [show] of any of the three returns normally and
    makes it the current one, in a state of the same kind, so that any
    further [show] does so again. *)
Theorem show_sets_current (w h : Z) (s : state) (sc : Screen) :
  reachable w h s ->
  (exists sc0, current (self s) = Some sc0)
  /\ fst (show sc s) = Py.Ok tt
  /\ current (self (snd (show sc s))) = Some sc
  /\ reachable w h (snd (show sc s))
  /\ current (self (snd (show Main (snd (show WeatherDetail s))))) = Some Main.
Proof.
  intros Hreach.
  assert (Hshown : forall sc' s', reachable w h s' -> reachable w h (snd (show sc' s'))).
  { intros sc' s' Hs'. destruct sc'.
    - apply (reach_event w h s' BackClicked Hs').
    - apply (reach_event w h s' TempClicked Hs').
    - apply (reach_event w h s' DateClicked Hs'). }
  destruct (reachable_invariant w h s Hreach) as [Hpages _].
  split; [apply currentWidget_three_pages, Hpages|].
  split; [rewrite show_spec; reflexivity|].
  split; [apply show_current, Hpages|].
  split; [apply Hshown, Hreach|].
  apply show_current.
  apply (reachable_invariant w h (snd (show WeatherDetail s))), Hshown, Hreach.
Qed.

(** C9: when the key file cannot be opened or parsed, or lacks a key,
    [load_weather_key] returns [(None, None)] and raises nothing;
    [__init__] then returns a dashboard without key, whose summary reads
    "No API", and sends no request. *)
Theorem config_problem_disables_weather (w h : Z) (s : state) (w0 : World) :
  config_problem ->
  load_weather_key s = (Py.Ok (Py.PyNone, Py.PyNone), s)
  /\ exists d w1,
      init w h w0 = (Py.Ok d, w1)
      /\ api_key d = Py.PyNone /\ location d = Py.PyNone
      /\ temp_btn d = "No API"
      /\ requests w1 = requests w0.
Proof.
  intros Hproblem. split; [apply load_weather_key_problem, Hproblem|].
  unfold init.
  destruct (build_background w h (gen w0)) as [m g].
  unfold Py.bind at 1. rewrite (load_weather_key_problem _ Hproblem).
  unfold update_clock. run_monad. cbn [self world clock_reads requests gen fst snd].
  rewrite update_weather_no_key by reflexivity.
  eexists _, _. split; [reflexivity|]. repeat split.
Qed.

(** C10: without a key a refresh rewrites the summary and nothing else:
    the state it returns is the state it got with "No API" on the button,
    so the detail label keeps its text; and in every state the dashboard
    can be in without a key that text is still the initial "Loading…". *)
Theorem no_key_leaves_detail (w h : Z) (s : state) :
  Py.truthy (api_key (self s)) = false ->
  update_weather s = (Py.Ok tt, mk_state (set_temp_btn "No API" (self s)) (world s))
  /\ temp_btn (self (snd (update_weather s))) = "No API"
  /\ weather_info (self (snd (update_weather s))) = weather_info (self s)
  /\ (reachable w h s ->
      weather_info (self s) = "Loading…"
      /\ weather_info (self (snd (update_weather s))) = "Loading…").
Proof.
  intros Hkey. rewrite (update_weather_no_key s Hkey).
  split; [reflexivity|]. split; [reflexivity|]. split; [reflexivity|].
  intros Hreach. destruct (reachable_invariant w h s Hreach) as [_ Hinfo].
  split; apply Hinfo, Hkey.
Qed.

End DashboardProperties.

(* ================================================================== *)
(** * More on the background effect *)
(* ================================================================== *)
Section MatrixBackgroundLife.
Context {R : Random}.
Import MatrixBackground.

Lemma enumerate_length (cols : list Z) :
  forall i, List.length (enumerate i cols) = List.length cols.
Proof.
  induction cols as [|c r IH]; intros i; cbn; [reflexivity | rewrite IH; reflexivity].
Qed.

Lemma paint_columns_length (m : t) (cols : list Z) :
  forall i g, List.length (fst (fst (paint_columns m i cols g))) = List.length cols.
Proof.
  induction cols as [|col rest IH]; intros i g; cbn [paint_columns].
  - reflexivity.
  - destruct (step_column m i col g) as [[col' g1] op].
    specialize (IH (i + 1) g1).
    destruct (paint_columns m (i + 1) rest g1) as [[rest' g2] ops].
    cbn [fst List.length] in *. congruence.
Qed.

Lemma step_column_draws (m : t) (i col : Z) (g : rng) :
  snd (step_column m i col g)
  = DrawText (i * font_size m) (col * font_size m)
      (fst (random_choice "" (chars m) g)).
Proof.
  unfold step_column.
  destruct (random_choice "" (chars m) g) as [char g1]; cbn [fst].
  destruct (col * font_size m >? height m); [|reflexivity].
  destruct (random_random g1) as [r g2].
  destruct (Py.fgt r threshold); reflexivity.
Qed.

Lemma paint_columns_positions (m : t) (cols : list Z) :
  forall i g,
    map fst (drawn (snd (paint_columns m i cols g)))
    = map (fun ic => (fst ic * font_size m, snd ic * font_size m)) (enumerate i cols).
Proof.
  induction cols as [|col rest IH]; intros i g; cbn [paint_columns enumerate].
  - reflexivity.
  - pose proof (step_column_draws m i col g) as Hop.
    destruct (step_column m i col g) as [[col' g1] op]; cbn [snd] in Hop.
    specialize (IH (i + 1) g1).
    destruct (paint_columns m (i + 1) rest g1) as [[rest' g2] ops].
    cbn [snd] in *. subst op.
    change (drawn (DrawText (i * font_size m) (col * font_size m)
                     (fst (random_choice "" (chars m) g)) :: ops))
      with ((i * font_size m, col * font_size m, fst (random_choice "" (chars m) g))
              :: drawn ops).
    cbn [map fst snd]. rewrite IH. reflexivity.
Qed.

Lemma paintEvent_attributes (m : t) (g : rng) :
  let m' := fst (fst (paintEvent m g)) in
  running m' = running m /\ chars m' = chars m /\ font_size m' = font_size m
  /\ width m' = width m /\ height m' = height m
  /\ List.length (columns m') = List.length (columns m).
Proof.
  cbv zeta. unfold paintEvent. destruct (running m) eqn:Hrun; cbn [negb].
  - pose proof (paint_columns_length m (columns m) 0 g) as Hlen.
    destruct (paint_columns m 0 (columns m) g) as [[cols g'] ops].
    cbn in *. rewrite Hrun. repeat split. exact Hlen.
  - cbn. repeat split. exact Hrun.
Qed.

(** X1: a paint of the running effect keeps the number of columns and
    every other attribute, and draws, after the background and the font
    and pen are set, exactly one glyph per column: that of column [i] at
    [x = i * font_size] and [y = row * font_size], with the row the column
    had before the paint. *)
Theorem matrix_paint_one_glyph_per_column (m : t) (g : rng) :
  running m = true ->
  let m' := fst (fst (paintEvent m g)) in
  let ops := snd (paintEvent m g) in
  List.length (columns m') = List.length (columns m)
  /\ running m' = true /\ chars m' = chars m /\ font_size m' = font_size m
  /\ width m' = width m /\ height m' = height m
  /\ firstn 3 ops = [FillRect (width m) (height m); SetFont "Consolas" (font_size m);
                     SetPen 0 255 0]
  /\ List.length (drawn ops) = List.length (columns m)
  /\ map fst (drawn ops)
     = map (fun ic => (fst ic * font_size m, snd ic * font_size m))
           (enumerate 0 (columns m)).
Proof.
  intros Hrun. cbv zeta.
  destruct (paintEvent_attributes m g) as (Hr & Hc & Hf & Hw & Hh & Hlen).
  rewrite Hrun in Hr.
  split; [exact Hlen|]. split; [exact Hr|]. split; [exact Hc|].
  split; [exact Hf|]. split; [exact Hw|]. split; [exact Hh|].
  pose proof (paint_columns_positions m (columns m) 0 g) as Hpos.
  unfold paintEvent. rewrite Hrun; cbn [negb].
  destruct (paint_columns m 0 (columns m) g) as [[cols g'] ops].
  cbn [snd fst] in *.
  split; [reflexivity|].
  assert (Hdrawn : drawn (FillRect (width m) (height m)
                            :: SetFont "Consolas" (font_size m) :: SetPen 0 255 0 :: ops)
                   = drawn ops) by reflexivity.
  rewrite Hdrawn. split; [|exact Hpos].
  transitivity (List.length (map fst (drawn ops))); [symmetry; apply length_map|].
  rewrite Hpos, length_map. apply enumerate_length.
Qed.

Lemma ticks_attributes (n : nat) :
  forall m g,
    let m' := fst (ticks n m g) in
    running m' = running m /\ chars m' = chars m /\ font_size m' = font_size m
    /\ width m' = width m /\ height m' = height m
    /\ List.length (columns m') = List.length (columns m).
Proof.
  induction n as [|n IH]; intros m g; cbv zeta; cbn [ticks].
  - repeat split.
  - pose proof (paintEvent_attributes m g) as Hpaint. cbv zeta in Hpaint.
    destruct (paintEvent m g) as [[m1 g1] ops]; cbn [fst] in Hpaint.
    specialize (IH m1 g1). cbv zeta in IH.
    destruct Hpaint as (H1 & H2 & H3 & H4 & H5 & H6).
    destruct IH as (I1 & I2 & I3 & I4 & I5 & I6).
    repeat split; congruence.
Qed.

Lemma Forall2_compose {A : Type} (P Q S : A -> A -> Prop) (Pre : A -> Prop)
  (l1 l2 l3 : list A) :
  (forall a b c, Pre a -> P a b -> Q b c -> S a c) ->
  Forall Pre l1 -> Forall2 P l1 l2 -> Forall2 Q l2 l3 -> Forall2 S l1 l3.
Proof.
  intros Hstep Hpre H12. revert l3.
  induction H12 as [|a b l1 l2 Hab _ IH]; intros l3 H23.
  - inversion H23. constructor.
  - inversion H23; subst. inversion Hpre; subst.
    constructor; [eapply Hstep; eauto | apply IH; assumption].
Qed.

Lemma ticks_advance (n : nat) :
  forall m g,
    running m = true -> 0 <= font_size m ->
    Forall (fun r => 0 <= r) (columns m) ->
    Forall2 (advanced m n) (columns m) (columns (fst (ticks n m g))).
Proof.
  induction n as [|n IH]; intros m g Hrun Hfont Hall.
  - cbn [ticks fst]. clear Hall.
    induction (columns m) as [|c r IHr]; constructor; [|exact IHr].
    unfold advanced. cbn. split; lia.
  - cbn [ticks].
    pose proof (paintEvent_attributes m g) as Hattr. cbv zeta in Hattr.
    pose proof (paintEvent_columns m g Hrun) as Hcols.
    pose proof (paint_columns_step m (columns m) 0 g) as Hstep.
    pose proof (paintEvent_nonneg m g Hall) as Hnext.
    destruct (paintEvent m g) as [[m1 g1] ops]; cbn [fst] in *.
    destruct Hattr as (Hr1 & _ & Hf1 & _ & Hh1 & _).
    rewrite <- Hcols in Hstep.
    assert (Hrun1 : running m1 = true) by congruence.
    assert (Hfont1 : 0 <= font_size m1) by congruence.
    specialize (IH m1 g1 Hrun1 Hfont1 Hnext).
    refine (Forall2_compose (column_step m) (advanced m1 n) (advanced m (S n))
              (fun r => 0 <= r) _ _ _ _ Hall Hstep IH).
    intros a b c Ha Hab [Hle Hexact]. unfold advanced.
    rewrite Hf1, Hh1 in Hexact. rewrite Nat2Z.inj_succ.
    destruct Hab as [Hbelow -> | ->].
    + unfold below_widget in Hbelow. split; [lia|].
      intros Hon. exfalso.
      assert (a * font_size m <= (a + Z.succ (Z.of_nat n) - 1) * font_size m)
        by (apply Z.mul_le_mono_nonneg_r; lia).
      lia.
    + split; [lia|]. intros Hon.
      rewrite Hexact; [lia|].
      replace (a + 1 + Z.of_nat n - 1) with (a + Z.succ (Z.of_nat n) - 1) by lia.
      exact Hon.
Qed.

(** X2: while the effect runs, a row grows by at most one per tick, and
    by exactly one as long as it stays on the widget: a row whose position
    [n - 1] ticks from now is still within the height stands [n] rows
    further after [n] ticks, whatever the random numbers are.  (The cell
    size is not negative; rows start at 0 or below it.) *)
Theorem matrix_rows_advance_on_screen (m : t) (g : rng) (n : nat) :
  running m = true ->
  0 <= font_size m ->
  Forall (fun r => 0 <= r) (columns m) ->
  Forall2 (fun col col' =>
             col' <= col + Z.of_nat n
             /\ ((col + Z.of_nat n - 1) * font_size m <= height m ->
                 col' = col + Z.of_nat n))
          (columns m) (columns (fst (ticks n m g))).
Proof. intros Hrun Hfont Hall. exact (ticks_advance n m g Hrun Hfont Hall). Qed.

Lemma random_choice_in {A : Type} (d : A) (seq : list A) (g : rng) :
  randbelow_in_range R -> seq <> [] ->
  In (fst (random_choice d seq g)) seq.
Proof.
  intros Hrange Hne. unfold random_choice.
  assert (Hlen : 0 < Z.of_nat (List.length seq))
    by (destruct seq; [congruence | cbn [List.length]; lia]).
  pose proof (Hrange _ g Hlen) as Hi.
  destruct (randbelow (Z.of_nat (List.length seq)) g) as [i g']; cbn [fst] in *.
  apply nth_In. lia.
Qed.

Lemma paint_columns_glyphs (m : t) (cols : list Z) :
  randbelow_in_range R -> chars m <> [] ->
  forall i g,
    Forall (fun xyc => In (snd xyc) (chars m)) (drawn (snd (paint_columns m i cols g))).
Proof.
  intros Hrange Hne.
  induction cols as [|col rest IH]; intros i g; cbn [paint_columns].
  - constructor.
  - pose proof (step_column_draws m i col g) as Hop.
    destruct (step_column m i col g) as [[col' g1] op]; cbn [snd] in Hop.
    specialize (IH (i + 1) g1).
    destruct (paint_columns m (i + 1) rest g1) as [[rest' g2] ops].
    cbn [snd] in *. subst op.
    change (drawn (DrawText (i * font_size m) (col * font_size m)
                     (fst (random_choice "" (chars m) g)) :: ops))
      with ((i * font_size m, col * font_size m, fst (random_choice "" (chars m) g))
              :: drawn ops).
    constructor; [apply random_choice_in; assumption | exact IH].
Qed.

Lemma paintEvent_drawn (m : t) (g : rng) :
  drawn (snd (paintEvent m g))
  = if running m then drawn (snd (paint_columns m 0 (columns m) g)) else [].
Proof.
  unfold paintEvent. destruct (running m); cbn [negb]; [|reflexivity].
  destruct (paint_columns m 0 (columns m) g) as [[cols g'] ops]. reflexivity.
Qed.

Lemma in_glyphs (c : string) :
  In c glyphs ->
  exists k : nat, (33 <= k <= 126)%nat /\ c = String (ascii_of_nat k) "".
Proof.
  unfold glyphs. intros Hin. apply in_map_iff in Hin as (k & <- & Hk).
  apply in_seq in Hk. exists k. split; [lia | reflexivity].
Qed.

(** X3: with a generator that honours the contract of [_randbelow], a
    paint never draws anything but one of the widget's glyphs; on a
    laid-out widget each is a single character of code 33 to 126. *)
Theorem matrix_paint_draws_glyphs (m : t) (g : rng) :
  randbelow_in_range R ->
  chars m <> [] ->
  Forall (fun xyc => In (snd xyc) (chars m)) (drawn (snd (paintEvent m g)))
  /\ (chars m = glyphs ->
      Forall (fun xyc => exists k : nat,
                           (33 <= k <= 126)%nat
                           /\ snd xyc = String (ascii_of_nat k) "")
             (drawn (snd (paintEvent m g)))).
Proof.
  intros Hrange Hne.
  assert (Hin : Forall (fun xyc => In (snd xyc) (chars m)) (drawn (snd (paintEvent m g)))).
  { rewrite paintEvent_drawn. destruct (running m); [|constructor].
    apply paint_columns_glyphs; assumption. }
  split; [exact Hin|].
  intros Hglyphs. rewrite Hglyphs in Hin.
  eapply Forall_impl; [|exact Hin]. intros xyc. apply in_glyphs.
Qed.

Lemma init_columns_laid_out (m : t) (g : rng) :
  randbelow_in_range R -> chars m = glyphs ->
  laid_out (fst (init_columns m g)).
Proof.
  intros Hrange Hchars. unfold init_columns.
  pose proof (random_rows_length
                (Z.to_nat ((if width m =? 0 then 400 else width m) / 12)) g) as Hlen.
  pose proof (random_rows_range
                (Z.to_nat ((if width m =? 0 then 400 else width m) / 12)) Hrange g)
    as Hrows.
  destruct (random_rows _ g) as [cols g']. cbn [fst] in *.
  unfold laid_out, effective_width. cbn.
  split; [reflexivity|]. split; [exact Hchars|]. split; [exact Hlen|].
  eapply Forall_impl; [|exact Hrows]. cbn. intros; lia.
Qed.

Lemma laid_out_well_formed (m : t) : laid_out m -> well_formed m.
Proof. intros (Hfont & Hchars & _ & Hrows). repeat split; assumption. Qed.

Lemma paintEvent_well_formed (m : t) (g : rng) :
  well_formed m -> well_formed (fst (fst (paintEvent m g))).
Proof.
  intros (Hfont & Hchars & Hrows).
  pose proof (paintEvent_attributes m g) as Hattr. cbv zeta in Hattr.
  pose proof (paintEvent_nonneg m g Hrows) as Hnext.
  destruct Hattr as (_ & Hc & Hf & _).
  unfold well_formed. rewrite Hf, Hc. repeat split; assumption.
Qed.

Lemma paintEvent_laid_out (m : t) (g : rng) :
  laid_out m -> laid_out (fst (fst (paintEvent m g))).
Proof.
  intros (Hfont & Hchars & Hlen & Hrows).
  pose proof (paintEvent_attributes m g) as Hattr. cbv zeta in Hattr.
  pose proof (paintEvent_nonneg m g Hrows) as Hnext.
  destruct Hattr as (_ & Hc & Hf & Hw & _ & Hl).
  unfold laid_out, effective_width in *. rewrite Hw, Hf, Hc, Hl.
  repeat split; assumption.
Qed.

Lemma resizeEvent_laid_out (m : t) (g : rng) :
  randbelow_in_range R -> well_formed m -> laid_out (fst (resizeEvent m g)).
Proof.
  intros Hrange (_ & Hchars & _). apply init_columns_laid_out; assumption.
Qed.

Lemma resize_laid_out (w h : Z) (m : t) (g : rng) :
  randbelow_in_range R -> well_formed m -> laid_out (fst (resize w h m g)).
Proof.
  intros Hrange (_ & Hchars & _). unfold resize, resizeEvent.
  apply init_columns_laid_out; assumption.
Qed.

(** A hidden widget takes the size and keeps its columns. *)
Lemma setGeometry_hidden (w h : Z) (m : t) (g : rng) :
  let m' := fst (setGeometry false w h m g) in
  width m' = w /\ height m' = h /\ columns m' = columns m
  /\ running m' = running m /\ chars m' = chars m /\ font_size m' = font_size m
  /\ snd (setGeometry false w h m g) = g.
Proof.
  cbv zeta. unfold setGeometry.
  destruct ((w =? width m) && (h =? height m)) eqn:Hsame; cbn.
  - apply andb_true_iff in Hsame as [Hw Hh]. apply Z.eqb_eq in Hw, Hh.
    repeat split; congruence.
  - repeat split.
Qed.

(** A widget on screen takes the size and follows it at once. *)
Lemma setGeometry_on_screen (w h : Z) (m : t) (g : rng) :
  randbelow_in_range R -> laid_out m ->
  let m' := fst (setGeometry true w h m g) in
  width m' = w /\ height m' = h /\ laid_out m'.
Proof.
  intros Hrange Hlaid. cbv zeta. unfold setGeometry.
  destruct ((w =? width m) && (h =? height m)) eqn:Hsame.
  - apply andb_true_iff in Hsame as [Hw Hh]. apply Z.eqb_eq in Hw, Hh.
    cbn [fst]. split; [auto|]. split; [auto | exact Hlaid].
  - pose proof (resize_laid_out w h m g Hrange (laid_out_well_formed m Hlaid))
      as Hnext.
    unfold resize, resizeEvent, init_columns in *.
    destruct (random_rows _ g) as [cols g']. cbn [fst] in *.
    split; [reflexivity|]. split; [reflexivity | exact Hnext].
Qed.

Lemma setGeometry_well_formed (b : bool) (w h : Z) (m : t) (g : rng) :
  randbelow_in_range R -> well_formed m ->
  well_formed (fst (setGeometry b w h m g)).
Proof.
  intros Hrange Hwf. unfold setGeometry.
  destruct ((w =? width m) && (h =? height m)); [exact Hwf|].
  destruct b.
  - apply laid_out_well_formed, resize_laid_out; assumption.
  - exact Hwf.
Qed.

Lemma created_consistent (w h : Z) (g : rng) :
  randbelow_in_range R ->
  consistent (fst (created w h g)) /\ laid_out (it (fst (created w h g))).
Proof.
  intros Hrange.
  pose proof (init_columns_laid_out
                (mk true (map (fun i => String (ascii_of_nat i) "") (seq 33 94))
                    [] 0 w h) g Hrange eq_refl) as Hinit.
  unfold created, init. destruct (init_columns _ g) as [m0 g0].
  cbn [fst it visible resize_pending] in *.
  split; [|exact Hinit].
  split; [apply laid_out_well_formed, Hinit|].
  split; [intros _; exact Hinit | discriminate].
Qed.

Lemma act_consistent (a : action) (q : widget) (g : rng) :
  randbelow_in_range R -> consistent q -> consistent (fst (act a q g)).
Proof.
  intros Hrange (Hwf & Hlaid & Hvis).
  destruct q as [m v p]. cbn [it visible resize_pending] in *.
  unfold consistent.
  destruct a as [| |w h| |]; cbn [act it visible resize_pending].
  - destruct v; cbn [fst it visible resize_pending];
      [|split; [exact Hwf|]; split; [exact Hlaid | exact Hvis]].
    pose proof (paintEvent_well_formed m g Hwf) as Hwf'.
    pose proof (paintEvent_laid_out m g) as Hlaid'.
    destruct (paintEvent m g) as [[m' g'] ops]. cbn [fst it visible resize_pending] in *.
    split; [exact Hwf'|]. split; [intros Hp; apply Hlaid', Hlaid, Hp | exact Hvis].
  - cbn [fst it visible resize_pending].
    split; [exact Hwf|]. split; [exact Hlaid | exact Hvis].
  - pose proof (setGeometry_well_formed v w h m g Hrange Hwf) as Hwf'.
    destruct v.
    + specialize (Hvis eq_refl). subst p.
      pose proof (setGeometry_on_screen w h m g Hrange (Hlaid eq_refl))
        as (_ & _ & Hnext).
      destruct (setGeometry true w h m g) as [m' g'].
      cbn [fst it visible resize_pending orb negb andb] in *.
      split; [exact Hwf'|]. split; [intros _; exact Hnext | reflexivity].
    + unfold setGeometry in *.
      destruct ((w =? width m) && (h =? height m));
        cbn [fst it visible resize_pending orb negb andb] in *.
      * rewrite orb_false_r.
        split; [exact Hwf|]. split; [exact Hlaid | discriminate].
      * rewrite orb_true_r.
        split; [exact Hwf'|]. split; discriminate.
  - destruct v; cbn [fst it visible resize_pending];
      [split; [exact Hwf|]; split; [exact Hlaid | exact Hvis]|].
    destruct p.
    + pose proof (resizeEvent_laid_out m g Hrange Hwf) as Hnext.
      destruct (resizeEvent m g) as [m' g']. cbn [fst it visible resize_pending] in *.
      split; [apply laid_out_well_formed, Hnext|].
      split; [intros _; exact Hnext | reflexivity].
    + cbn [fst it visible resize_pending].
      split; [exact Hwf|]. split; [exact Hlaid | reflexivity].
  - cbn [fst it visible resize_pending].
    split; [exact Hwf|]. split; [exact Hlaid | discriminate].
Qed.

Lemma acts_consistent (l : list action) :
  randbelow_in_range R ->
  forall q g, consistent q -> consistent (fst (acts l q g)).
Proof.
  intros Hrange. induction l as [|a rest IH]; intros q g Hq; cbn [acts].
  - exact Hq.
  - pose proof (act_consistent a q g Hrange Hq) as Hnext.
    destruct (act a q g) as [q' g']. apply IH, Hnext.
Qed.

(** X4: a widget is laid out for its width whenever it is on screen, so
    at every paint, from [__init__] on and through any paints, toggles,
    changes of geometry, shows and hides: cells of 12, the 94 glyphs, as
    many columns as [(self.width() or 400) // 12], no row above the top.
    While it is hidden it takes a new size and keeps its columns; the
    resize event Qt holds back lays them out again when it is shown. *)
Theorem matrix_stays_laid_out (w h : Z) (g : rng) (l : list action) (w' h' : Z) :
  randbelow_in_range R ->
  let q0 := fst (created w h g) in
  let q := fst (acts l q0 (snd (created w h g))) in
  let g1 := snd (acts l q0 (snd (created w h g))) in
  laid_out (it q0)
  /\ well_formed (it q)
  /\ (visible q = true -> laid_out (it q))
  /\ (resize_pending q = false -> laid_out (it q))
  /\ (visible q = false ->
      let q' := fst (act (SetGeometry w' h') q g1) in
      width (it q') = w' /\ height (it q') = h'
      /\ columns (it q') = columns (it q))
  /\ (let q' := fst (act Show q g1) in
      visible q' = true /\ laid_out (it q')).
Proof.
  intros Hrange. cbv zeta.
  destruct (created_consistent w h g Hrange) as [Hq0 Hlaid0].
  pose proof (acts_consistent l Hrange _ (snd (created w h g)) Hq0) as Hq.
  destruct (acts l (fst (created w h g)) (snd (created w h g))) as [q g1].
  cbn [fst snd] in *.
  pose proof (act_consistent Show q g1 Hrange Hq) as Hshow.
  destruct Hq as (Hwf & Hlaid & Hvis).
  split; [exact Hlaid0|]. split; [exact Hwf|].
  split; [intros Hv; apply Hlaid, Hvis, Hv|]. split; [exact Hlaid|].
  split.
  - intros Hhidden. cbn [act]. rewrite Hhidden.
    pose proof (setGeometry_hidden w' h' (it q) g1) as Hset. cbv zeta in Hset.
    destruct (setGeometry false w' h' (it q) g1) as [m' g'].
    cbn [fst it] in *. destruct Hset as (Hw & Hh & Hcols & _).
    split; [exact Hw|]. split; [exact Hh | exact Hcols].
  - destruct Hshow as (_ & Hlaid' & Hvis').
    assert (Hv : visible (fst (act Show q g1)) = true).
    { cbn [act]. destruct (visible q) eqn:Hv; [exact Hv|].
      destruct (resize_pending q); [|reflexivity].
      destruct (resizeEvent (it q) g1) as [m' g']. reflexivity. }
    split; [exact Hv | apply Hlaid', Hvis', Hv].
Qed.

Lemma enumerate_in (cols : list Z) :
  forall k i c, In (i, c) (enumerate k cols) ->
                k <= i < k + Z.of_nat (List.length cols) /\ In c cols.
Proof.
  induction cols as [|col rest IH]; intros k i c Hin; cbn [enumerate] in Hin.
  - destruct Hin.
  - destruct Hin as [[= <- <-] | Hin].
    + cbn [List.length]. split; [lia | left; reflexivity].
    + apply IH in Hin as [Hi Hc]. cbn [List.length]. split; [lia | right; exact Hc].
Qed.

(** X5: on a laid-out widget every glyph of a paint lies within the
    width the columns were laid out for, one cell wide from a multiple of
    12, and not above the top. *)
Theorem matrix_glyphs_within_width (m : t) (g : rng) :
  laid_out m ->
  Forall (fun xy => 0 <= fst xy /\ fst xy + 12 <= effective_width m
                    /\ fst xy mod 12 = 0 /\ 0 <= snd xy)
         (map fst (drawn (snd (paintEvent m g)))).
Proof.
  intros (Hfont & _ & Hlen & Hrows).
  rewrite paintEvent_drawn. destruct (running m); [|constructor].
  rewrite paint_columns_positions, Hfont.
  apply Forall_forall. intros xy Hin.
  apply in_map_iff in Hin as ([i c] & <- & Hin).
  apply enumerate_in in Hin as [Hi Hc]. cbn [fst snd].
  rewrite Forall_forall in Hrows. specialize (Hrows c Hc).
  rewrite Hlen in Hi.
  assert (Hq : 0 < effective_width m / 12) by lia.
  rewrite Z2Nat.id in Hi by lia.
  pose proof (Z.mul_div_le (effective_width m) 12 ltac:(lia)) as Hmul.
  split; [lia|]. split; [lia|]. split; [apply Z.mod_mul; lia | lia].
Qed.

End MatrixBackgroundLife.

(* ================================================================== *)
(** * More on the analog clock *)
(* ================================================================== *)
Section AnalogClockPicture.
Import AnalogClock.

(** X6: the picture depends on the time of day alone, and on the hour
    only through [hour % 12]: two samples with the same minute and second
    whose hours agree modulo 12 (03:20:10 and 15:20:10, on any two days)
    give the same picture. *)
Theorem clock_picture_from_time_of_day (width height : Z)
  (clock clock' : nat -> datetime) (reads reads' : nat) :
  hour (clock reads) mod 12 = hour (clock' reads') mod 12 ->
  minute (clock reads) = minute (clock' reads') ->
  second (clock reads) = second (clock' reads') ->
  fst (paintEvent width height clock reads) = fst (paintEvent width height clock' reads').
Proof.
  intros Hh Hm Hs. unfold paintEvent. cbv zeta. cbn [fst].
  rewrite Hh, Hm, Hs. reflexivity.
Qed.

Lemma paintEvent_marks (width height : Z) (clock : nat -> datetime) (reads : nat) :
  let shapes := fst (paintEvent width height clock reads) in
  List.length shapes = 16%nat
  /\ hd_error shapes
     = Some (Ellipse (centred width height) NoPen (QBrush "#222") (-140) (-140) 280 280)
  /\ lines_with (QPen "white" 3) shapes
     = map (fun k => ((centred width height ++ repeat (Rotate (Py.float_of_Z 30)) k)%list,
                      (0, -120, 0, -135)))
           (seq 0 12).
Proof. cbv zeta. split; [|split]; reflexivity. Qed.

Lemma mark_degrees (width height : Z) (k : nat) :
  (k < 12)%nat ->
  (degrees (centred width height ++ repeat (Rotate (Py.float_of_Z 30)) k)
   == inject_Z (30 * Z.of_nat k))%Q.
Proof.
  intros Hk. unfold centred, degrees. cbn [app fold_right].
  do 12 (destruct k as [|k]; [vm_compute; reflexivity|]). lia.
Qed.

(** X7: whatever the size of the widget and the time, the picture is
    16 shapes: first the face, a disc of 280 units drawn without outline
    from the centre of the widget, then twelve marks of the same length,
    the [k]-th turned by [30 * k] degrees, then the hands. *)
Theorem clock_face_and_marks (width height : Z) (clock : nat -> datetime) (reads : nat) :
  let shapes := fst (paintEvent width height clock reads) in
  let marks := lines_with (QPen "white" 3) shapes in
  List.length shapes = 16%nat
  /\ hd_error shapes
     = Some (Ellipse (centred width height) NoPen (QBrush "#222") (-140) (-140) 280 280)
  /\ map snd marks = repeat (0, -120, 0, -135) 12
  /\ Forall2 (fun tr k => (degrees tr == inject_Z (30 * Z.of_nat k))%Q)
             (map fst marks) (seq 0 12).
Proof.
  cbv zeta.
  destruct (paintEvent_marks width height clock reads) as (Hlen & Hface & Hmarks).
  cbv zeta in Hmarks. rewrite Hmarks.
  split; [exact Hlen|]. split; [exact Hface|]. split; [reflexivity|].
  rewrite map_map. cbn [fst].
  assert (Hall : forall l, Forall (fun k => (k < 12)%nat) l ->
                           Forall2 (fun tr k => (degrees tr == inject_Z (30 * Z.of_nat k))%Q)
                                   (map (fun k => (centred width height
                                                     ++ repeat (Rotate (Py.float_of_Z 30)) k)%list) l)
                                   l).
  { induction 1 as [|k l Hk _ IH]; cbn [map]; constructor;
      [apply mark_degrees, Hk | exact IH]. }
  apply Hall. apply Forall_forall. intros k Hk. apply in_seq in Hk. lia.
Qed.

Lemma all_hours_in_sector :
  forallb (fun h => forallb (hour_in_sector h) (zrange 60)) (zrange 24) = true.
Proof. vm_compute. reflexivity. Qed.

Lemma all_minutes_in_sector :
  forallb (fun m => forallb (minute_in_sector m) (zrange 60)) (zrange 60) = true.
Proof. vm_compute. reflexivity. Qed.

Lemma in_sector_spec (a : spec_float) (step unit : Z) :
  in_sector a step unit = true ->
  Py.is_finite a = true
  /\ (inject_Z (step * unit) <= Py.SF2Q a)%Q
  /\ (Py.SF2Q a < inject_Z (step * (unit + 1)))%Q.
Proof.
  unfold in_sector. intros Hin.
  apply andb_true_iff in Hin as [Hin Hhi]. apply andb_true_iff in Hin as [Hfin Hlo].
  split; [exact Hfin|]. split; [apply Qle_bool_iff, Hlo|].
  apply Qnot_le_lt. intros Hle. apply Qle_bool_iff in Hle.
  rewrite Hle in Hhi. discriminate.
Qed.

(** X8: rounding never takes a hand out of its place on the dial: at
    every valid time the hour hand points into the 30 degrees of its hour,
    from [30 * (hour mod 12)] up to the next hour mark excluded, and the
    minute hand into the 6 degrees of its minute; both angles lie in
    [[0, 360)]. *)
Theorem clock_hands_in_their_sector (t : datetime) :
  valid_time t ->
  (inject_Z (30 * (hour t mod 12)) <= Py.SF2Q (hour_rotation t)
   /\ Py.SF2Q (hour_rotation t) < inject_Z (30 * (hour t mod 12 + 1)))%Q
  /\ (inject_Z (6 * minute t) <= Py.SF2Q (minute_rotation t)
      /\ Py.SF2Q (minute_rotation t) < inject_Z (6 * (minute t + 1)))%Q
  /\ (0 <= Py.SF2Q (hour_rotation t) /\ Py.SF2Q (hour_rotation t) < 360)%Q
  /\ (0 <= Py.SF2Q (minute_rotation t) /\ Py.SF2Q (minute_rotation t) < 360)%Q.
Proof.
  intros (Hh & Hm & Hs).
  assert (Hhour : hour_in_sector (hour t) (minute t) = true).
  { apply (forallb_zrange (hour_in_sector (hour t)) 60); [|exact Hm].
    apply (forallb_zrange (fun h => forallb (hour_in_sector h) (zrange 60)) 24
             all_hours_in_sector). exact Hh. }
  assert (Hmin : minute_in_sector (minute t) (second t) = true).
  { apply (forallb_zrange (minute_in_sector (minute t)) 60); [|exact Hs].
    apply (forallb_zrange (fun m => forallb (minute_in_sector m) (zrange 60)) 60
             all_minutes_in_sector). exact Hm. }
  apply in_sector_spec in Hhour as (_ & Hhlo & Hhhi).
  apply in_sector_spec in Hmin as (_ & Hmlo & Hmhi).
  fold (hour_rotation t) in Hhlo, Hhhi. fold (minute_rotation t) in Hmlo, Hmhi.
  pose proof (Z.mod_pos_bound (hour t) 12 ltac:(lia)) as Hmod.
  split; [split; assumption|]. split; [split; assumption|].
  split; split.
  - eapply Qle_trans; [|exact Hhlo]. change 0%Q with (inject_Z 0).
    rewrite <- Zle_Qle. lia.
  - eapply Qlt_le_trans; [exact Hhhi|]. change 360%Q with (inject_Z 360).
    rewrite <- Zle_Qle. lia.
  - eapply Qle_trans; [|exact Hmlo]. change 0%Q with (inject_Z 0).
    rewrite <- Zle_Qle. lia.
  - eapply Qlt_le_trans; [exact Hmhi|]. change 360%Q with (inject_Z 360).
    rewrite <- Zle_Qle. lia.
Qed.

End AnalogClockPicture.

(* ================================================================== *)
(** * More on the dashboard *)
(* ================================================================== *)
Section DashboardLife.
Context {H : Host}.
Import Dashboard.

Local Open Scope py_scope.

Ltac step_monad :=
  unfold on_self, requests_get_, now_ in *;
  unfold Py.bind, Py.ret, Py.lift, Py.gets, Py.modify, Py.try_except,
    Py.try_except_Exception in *.

(** [__init__] is what [update_weather] makes of the dashboard built
    before it. *)
Lemma init_eq (w h : Z) (w0 : World) :
  init w h w0
  = match update_weather (before_first_refresh w h w0) with
    | (Py.Ok _, s1) => (Py.Ok (self s1), world s1)
    | (Py.Raise e, s1) => (Py.Raise e, world s1)
    end.
Proof.
  unfold init, before_first_refresh, loaded_key.
  destruct (build_background w h (gen w0)) as [m g].
  cbv zeta. unfold Py.bind at 1. cbv beta.
  match goal with
  | |- context [load_weather_key ?s0] => set (st0 := s0)
  end.
  destruct (load_weather_key_returns st0) as [kl Hkl]. rewrite Hkl.
  unfold update_clock. step_monad. subst st0.
  cbn [self world clock_reads requests gen fst snd].
  reflexivity.
Qed.

(** The four ways a refresh can go. *)
Lemma update_weather_cases (s : state) :
  (Py.truthy (api_key (self s)) = false
   /\ update_weather s = (Py.Ok tt, disabled s))
  \/ (Py.truthy (api_key (self s)) = true
      /\ exists e, Py.is_Exception e = false
                   /\ update_weather s = (Py.Raise e, requested s)
                   /\ (answer s = Py.Raise e
                       \/ exists resp, answer s = Py.Ok resp /\ json resp = Py.Raise e))
  \/ (Py.truthy (api_key (self s)) = true
      /\ fetch_failure s
      /\ update_weather s
         = (Py.Ok tt, with_texts "Err" "Weather load error" (requested s)))
  \/ (Py.truthy (api_key (self s)) = true
      /\ exists resp r temp_f condition,
          answer s = Py.Ok resp /\ json resp = Py.Ok r
          /\ extract r = Py.Ok (temp_f, condition)
          /\ update_weather s
             = (Py.Ok tt, with_texts (fst (populated_texts temp_f condition))
                                     (snd (populated_texts temp_f condition))
                                     (requested s))).
Proof.
  destruct (Py.truthy (api_key (self s))) eqn:Hkey.
  - right. destruct (answer s) as [resp|e] eqn:Hanswer.
    + destruct (json resp) as [r|e] eqn:Hjson.
      * rewrite (update_weather_extract s resp r Hkey Hanswer Hjson).
        destruct (extract r) as [[temp_f condition]|e] eqn:Hextract.
        -- right. right. split; [reflexivity|]. eauto 10.
        -- right. left. split; [reflexivity|]. split; [|reflexivity].
           apply (missing_field s resp r Hanswer Hjson).
           destruct (has_fields r) eqn:Hfields; [|reflexivity].
           apply extract_has_fields in Hfields as [tc Htc]. congruence.
      * rewrite (update_weather_json_raises s resp e Hkey Hanswer Hjson).
        destruct (Py.is_Exception e) eqn:He.
        -- right. left. split; [reflexivity|]. split; [|reflexivity].
           apply (malformed_json s resp e Hanswer Hjson He).
        -- left. split; [reflexivity|]. exists e. eauto 10.
    + rewrite (update_weather_get_raises s e Hkey Hanswer).
      destruct (Py.is_Exception e) eqn:He.
      * right. left. split; [reflexivity|]. split; [|reflexivity].
        apply (network_error s e Hanswer He).
      * left. split; [reflexivity|]. exists e. eauto 10.
  - left. split; [reflexivity | apply update_weather_no_key, Hkey].
Qed.


Lemma not_Err (x : string) : x ++ "°F" <> "Err".
Proof.
  destruct x as [|a [|b [|c [|d x]]]]; cbn; discriminate.
Qed.

(** X10: with a key, a refresh that returns leaves the error message on
    the detail screen, and "Err" on the button, exactly when the fetch
    failed; otherwise both show what was fetched. *)
Theorem weather_error_iff_failure (s : state) :
  Py.truthy (api_key (self s)) = true ->
  fst (update_weather s) = Py.Ok tt ->
  (weather_info (self (snd (update_weather s))) = "Weather load error"
   <-> fetch_failure s)
  /\ (temp_btn (self (snd (update_weather s))) = "Err" <-> fetch_failure s).
Proof.
  intros Hkey Hok.
  destruct (update_weather_cases s)
    as [[Hfalse _] | [(_ & e' & _ & Hrun & _)
                     | [(_ & Hfail & Hrun)
                       | (_ & resp & r & t & c & Ha & Hj & Hx & Hrun)]]].
  - congruence.
  - rewrite Hrun in Hok. discriminate.
  - rewrite Hrun. cbn. split; split; auto.
  - rewrite Hrun. cbn [snd self with_texts weather_info temp_btn set_weather_info
                       set_temp_btn populated_texts fst].
    assert (Hnot : ~ fetch_failure s).
    { intros [e Ha' He | resp' e Ha' Hj' He | resp' r' Ha' Hj' Hf].
      - congruence.
      - rewrite Ha in Ha'. injection Ha' as <-. congruence.
      - rewrite Ha in Ha'. injection Ha' as <-. rewrite Hj in Hj'. injection Hj' as <-.
        assert (has_fields r = true) by (apply extract_has_fields; eauto).
        congruence. }
    split; split; intros Habs; try contradiction.
    + cbn in Habs. discriminate.
    + exfalso. exact (not_Err _ Habs).
Qed.

(** X11: with a key, the labels a refresh leaves depend on the answer
    alone: two dashboards that get the same answer show the same summary
    and the same detail afterwards, whatever they showed before. *)
Theorem weather_labels_from_answer_alone (s1 s2 : state) :
  Py.truthy (api_key (self s1)) = true ->
  Py.truthy (api_key (self s2)) = true ->
  answer s1 = answer s2 ->
  fst (update_weather s1) = Py.Ok tt ->
  fst (update_weather s2) = Py.Ok tt
  /\ temp_btn (self (snd (update_weather s1))) = temp_btn (self (snd (update_weather s2)))
  /\ weather_info (self (snd (update_weather s1)))
     = weather_info (self (snd (update_weather s2))).
Proof.
  intros Hk1 Hk2 Hsame Hok.
  destruct (answer s1) as [resp|e] eqn:Ha1; symmetry in Hsame.
  - destruct (json resp) as [r|e] eqn:Hj.
    + rewrite (update_weather_extract s1 resp r Hk1 Ha1 Hj).
      rewrite (update_weather_extract s2 resp r Hk2 Hsame Hj).
      destruct (extract r) as [[t c]|e]; repeat split.
    + rewrite (update_weather_json_raises s1 resp e Hk1 Ha1 Hj) in *.
      rewrite (update_weather_json_raises s2 resp e Hk2 Hsame Hj).
      destruct (Py.is_Exception e); [repeat split | discriminate].
  - rewrite (update_weather_get_raises s1 e Hk1 Ha1) in *.
    rewrite (update_weather_get_raises s2 e Hk2 Hsame).
    destruct (Py.is_Exception e); [repeat split | discriminate].
Qed.

(** X12: the values are shown as Python prints them, unchecked: whatever
    JSON value sits under [temp_f], the button reads [str] of it followed
    by "°F": [None°F] for [null], the digits of an integer, a string as it
    is. *)
Theorem weather_values_unchecked (s : state) (resp : response)
  (d cur cond : list (string * Py.pyval)) (temp_f condition : Py.pyval) :
  Py.truthy (api_key (self s)) = true ->
  answer s = Py.Ok resp ->
  json resp = Py.Ok (Py.PyDict d) ->
  Py.lookup "current" d = Some (Py.PyDict cur) ->
  Py.lookup "temp_f" cur = Some temp_f ->
  Py.lookup "condition" cur = Some (Py.PyDict cond) ->
  Py.lookup "text" cond = Some condition ->
  fst (update_weather s) = Py.Ok tt
  /\ temp_btn (self (snd (update_weather s)))
     = Py.py_str container_repr temp_f ++ "°F"
  /\ weather_info (self (snd (update_weather s)))
     = "Temperature: " ++ Py.py_str container_repr temp_f ++ "°F" ++ nl
         ++ "Condition: " ++ Py.py_str container_repr condition
  /\ (temp_f = Py.PyNone -> temp_btn (self (snd (update_weather s))) = "None°F")
  /\ (forall z, temp_f = Py.PyInt z ->
                 temp_btn (self (snd (update_weather s))) = Py.str_of_Z z ++ "°F")
  /\ (forall x, temp_f = Py.PyStr x ->
                 temp_btn (self (snd (update_weather s))) = x ++ "°F").
Proof.
  intros Hkey Ha Hj Hcur Htemp Hcond Htext.
  rewrite (update_weather_extract s resp (Py.PyDict d) Hkey Ha Hj).
  assert (Hx : extract (Py.PyDict d) = Py.Ok (temp_f, condition)).
  { unfold extract. cbn [Py.getitem]. rewrite Hcur. cbn [Py.getitem].
    rewrite Htemp, Hcond. cbn [Py.getitem]. rewrite Htext. reflexivity. }
  rewrite Hx. cbn.
  split; [reflexivity|]. split; [reflexivity|]. split; [reflexivity|].
  split; [intros ->; reflexivity|]. split; intros ? ->; reflexivity.
Qed.

(** ** The date button *)

Lemma all_pad2_read_back : forallb pad2_reads_back (AnalogClock.zrange 100) = true.
Proof. vm_compute. reflexivity. Qed.

Lemma all_years_read_back :
  forallb (fun hi => forallb (fun lo => year_reads_back (100 * hi + lo))
                             (AnalogClock.zrange 100))
          (AnalogClock.zrange 100) = true.
Proof. vm_compute. reflexivity. Qed.

Lemma strftime_mdY_reads_back (t : datetime) :
  1 <= month t <= 12 -> 1 <= day t <= 31 -> 1000 <= year t <= 9999 ->
  String.length (strftime_mdY t) = 10%nat
  /\ read_mdY (strftime_mdY t) = Some (month t, day t, year t).
Proof.
  intros Hm Hd Hy.
  pose proof (forallb_zrange pad2_reads_back 100 all_pad2_read_back (month t)
                ltac:(cbn; lia)) as Hmonth.
  pose proof (forallb_zrange pad2_reads_back 100 all_pad2_read_back (day t)
                ltac:(cbn; lia)) as Hday.
  assert (Hhi : 0 <= year t / 100 < Z.of_nat 100)
    by (change (Z.of_nat 100) with 100; Z.div_mod_to_equations; lia).
  assert (Hlo : 0 <= year t mod 100 < Z.of_nat 100)
    by (change (Z.of_nat 100) with 100; Z.div_mod_to_equations; lia).
  pose proof (forallb_zrange _ 100 all_years_read_back _ Hhi) as Hyear.
  cbv beta in Hyear. apply (fun H => forallb_zrange _ 100 H _ Hlo) in Hyear.
  cbv beta in Hyear.
  rewrite <- (Z.div_mod (year t) 100) in Hyear by lia.
  clear Hhi Hlo.
  unfold strftime_mdY, pad2_reads_back, year_reads_back in *.
  destruct (year t <? 1000) eqn:Hlow; [apply Z.ltb_lt in Hlow; lia|].
  cbn [orb] in Hyear.
  destruct (pad2 (month t)) as [|m1 [|m2 [|? ?]]]; try discriminate.
  destruct (pad2 (day t)) as [|d1 [|d2 [|? ?]]]; try discriminate.
  destruct (Py.str_of_Z (year t)) as [|y1 [|y2 [|y3 [|y4 [|? ?]]]]]; try discriminate.
  destruct (number2 m1 m2) as [vm|] eqn:Hvm; [|discriminate].
  destruct (number2 d1 d2) as [vd|] eqn:Hvd; [|discriminate].
  destruct (number2 y1 y2) as [hi|] eqn:Hhi; [|discriminate].
  destruct (number2 y3 y4) as [lo|] eqn:Hlo; [|discriminate].
  apply Z.eqb_eq in Hmonth, Hday, Hyear.
  split; [reflexivity|].
  cbn [append read_mdY]. rewrite Hvm, Hvd, Hhi, Hlo. congruence.
Qed.

(** X13: a tick of the clock timer reads the clock once and writes the
    date on the date button, and touches nothing else; for a date with a
    four-digit year the text is ten characters long, like the placeholder
    it replaces, and spells the month, the day and the year read. *)
Theorem date_button_spells_the_date (s : state) :
  let t := datetime_now (clock_reads (world s)) in
  1 <= month t <= 12 -> 1 <= day t <= 31 -> 1000 <= year t <= 9999 ->
  update_clock s
  = (Py.Ok tt,
     mk_state (set_date_btn (strftime_mdY t) (self s))
              (mk_world (gen (world s)) (requests (world s))
                        (S (clock_reads (world s)))))
  /\ String.length (date_btn (self (snd (update_clock s)))) = 10%nat
  /\ read_mdY (date_btn (self (snd (update_clock s)))) = Some (month t, day t, year t).
Proof.
  cbv zeta. intros Hm Hd Hy.
  destruct (strftime_mdY_reads_back _ Hm Hd Hy) as [Hlen Hread].
  unfold update_clock. step_monad. cbn.
  split; [reflexivity|]. split; assumption.
Qed.

(** ** Start-up *)

Lemma load_weather_key_file (s : state) (f : file) (d : list (string * Py.pyval))
  (k l : Py.pyval) :
  open_ "Wapi.json" = Py.Ok f ->
  json_load f = Py.Ok (Py.PyDict d) ->
  Py.lookup "api_key" d = Some k ->
  Py.lookup "location" d = Some l ->
  load_weather_key s = (Py.Ok (k, l), s).
Proof.
  intros Ho Hj Hk Hl. unfold load_weather_key. step_monad.
  rewrite Ho, Hj. cbn [Py.getitem]. rewrite Hk, Hl. reflexivity.
Qed.

(** The background when [build_main_screen] is done with it: the size
    of the page, the columns of its creation. *)
Lemma build_background_spec (w h : Z) (g : @rng host_random) :
  let m := fst (build_background w h g) in
  MatrixBackground.width m = 640 /\ MatrixBackground.height m = 480
  /\ MatrixBackground.columns m
     = MatrixBackground.columns (fst (MatrixBackground.init w h g))
  /\ List.length (MatrixBackground.columns m)
     = Z.to_nat ((if w =? 0 then 400 else w) / 12)
  /\ MatrixBackground.running m = true
  /\ MatrixBackground.chars m = MatrixBackground.glyphs
  /\ MatrixBackground.font_size m = 12
  /\ snd (build_background w h g) = snd (MatrixBackground.init w h g).
Proof.
  cbv zeta. unfold build_background.
  assert (Hinit : let m0 := fst (MatrixBackground.init w h g) in
                  List.length (MatrixBackground.columns m0)
                  = Z.to_nat ((if w =? 0 then 400 else w) / 12)
                  /\ MatrixBackground.running m0 = true
                  /\ MatrixBackground.chars m0 = MatrixBackground.glyphs
                  /\ MatrixBackground.font_size m0 = 12).
  { cbv zeta. unfold MatrixBackground.init, MatrixBackground.init_columns.
    cbn [MatrixBackground.width].
    pose proof (random_rows_length
                  (Z.to_nat ((if w =? 0 then 400 else w) / 12)) g) as Hlen.
    destruct (MatrixBackground.random_rows _ g) as [cols g'].
    cbn in *. repeat split. exact Hlen. }
  cbv zeta in Hinit.
  destruct (MatrixBackground.init w h g) as [m0 g1]. cbn [fst snd] in *.
  pose proof (setGeometry_hidden 640 480 m0 g1) as Hset. cbv zeta in Hset.
  change (fst window_size) with 640. change (snd window_size) with 480.
  destruct Hset as (Hw & Hh & Hcols & Hrun & Hchars & Hfont & Hg).
  destruct Hinit as (Hlen0 & Hrun0 & Hchars0 & Hfont0).
  repeat split; congruence.
Qed.

Lemma before_first_refresh_spec (w h : Z) (w0 : World) :
  let s := before_first_refresh w h w0 in
  matrix_bg (self s) = fst (build_background w h (gen w0))
  /\ gen (world s) = snd (build_background w h (gen w0))
  /\ shown (self s) = false
  /\ matrix_btn (self s) = "Matrix ON"
  /\ current (self s) = Some Main
  /\ date_btn (self s) = strftime_mdY (datetime_now (clock_reads w0))
  /\ clock_reads (world s) = S (clock_reads w0).
Proof.
  cbv zeta. unfold before_first_refresh.
  destruct (build_background w h (gen w0)) as [m g]. cbn. repeat split.
Qed.

Lemma update_weather_shown (s : state) :
  shown (self (snd (update_weather s))) = shown (self s).
Proof.
  destruct (update_weather_cases s)
    as [[Hkey Hrun] | [(Hkey & e' & _ & Hrun & _)
                      | [(Hkey & _ & Hrun)
                        | (Hkey & resp & r & t & c & _ & _ & _ & Hrun)]]];
    rewrite Hrun; reflexivity.
Qed.

(** What a refresh leaves alone, whichever way it goes. *)
Lemma update_weather_frame (s : state) :
  let s1 := snd (update_weather s) in
  api_key (self s1) = api_key (self s) /\ location (self s1) = location (self s)
  /\ stack (self s1) = stack (self s) /\ date_btn (self s1) = date_btn (self s)
  /\ matrix_btn (self s1) = matrix_btn (self s)
  /\ matrix_bg (self s1) = matrix_bg (self s)
  /\ gen (world s1) = gen (world s) /\ clock_reads (world s1) = clock_reads (world s)
  /\ requests (world s1)
     = ((if Py.truthy (api_key (self s))
         then [weather_url (api_key (self s)) (location (self s))] else [])
          ++ requests (world s))%list.
Proof.
  cbv zeta.
  destruct (update_weather_cases s)
    as [[Hkey Hrun] | [(Hkey & e' & _ & Hrun & _)
                      | [(Hkey & _ & Hrun)
                        | (Hkey & resp & r & t & c & _ & _ & _ & Hrun)]]];
    rewrite Hrun, Hkey; cbn; repeat split.
Qed.

Lemma init_returns (w h : Z) (w0 : World) (d : t) (w1 : World) :
  init w h w0 = (Py.Ok d, w1) ->
  exists s1, update_weather (before_first_refresh w h w0) = (Py.Ok tt, s1)
             /\ d = self s1 /\ w1 = world s1.
Proof.
  rewrite init_eq.
  destruct (update_weather (before_first_refresh w h w0)) as [[[]|e] s1];
    [|discriminate].
  intros [= <- <-]. eauto.
Qed.

(** What [__init__] returns is the dashboard built before the first
    refresh, but for what the refresh does to the weather labels and the
    log of requests. *)
Lemma init_frame (w h : Z) (w0 : World) (d : t) (w1 : World) :
  init w h w0 = (Py.Ok d, w1) ->
  let s := before_first_refresh w h w0 in
  stack d = stack (self s) /\ date_btn d = date_btn (self s)
  /\ matrix_btn d = matrix_btn (self s) /\ matrix_bg d = matrix_bg (self s)
  /\ shown d = shown (self s)
  /\ gen w1 = gen (world s) /\ clock_reads w1 = clock_reads (world s).
Proof.
  intros Hinit. cbv zeta. apply init_returns in Hinit as (s1 & Hrun & -> & ->).
  pose proof (update_weather_frame (before_first_refresh w h w0)) as Hframe.
  pose proof (update_weather_shown (before_first_refresh w h w0)) as Hshown.
  cbv zeta in Hframe. rewrite Hrun in Hframe, Hshown. cbn [snd] in Hframe, Hshown.
  destruct Hframe as (_ & _ & Hstack & Hdate & Hbtn & Hbg & Hgen & Hclock & _).
  repeat split; assumption.
Qed.

Lemma dashboard_startup_facts (w h : Z) (w0 : World) (d : t) (w1 : World) :
  init w h w0 = (Py.Ok d, w1) ->
  MatrixBackground.running (matrix_bg d) = true /\ matrix_btn d = "Matrix ON".
Proof.
  intros Hinit.
  destruct (init_frame w h w0 d w1 Hinit) as (_ & _ & Hbtn & Hbg & _).
  destruct (before_first_refresh_spec w h w0) as (Hbg0 & _ & _ & Hbtn0 & _).
  destruct (build_background_spec w h (gen w0)) as (_ & _ & _ & _ & Hrun & _).
  rewrite Hbtn, Hbg, Hbg0. split; [exact Hrun | exact Hbtn0].
Qed.

(** X14: when [__init__] returns, the dashboard is on its main page,
    the background runs and its button says so, and the date button shows
    the date of the one reading of the clock made.  Nothing is on screen
    yet, and the background has the 640 x 480 of the page it lies on with
    the columns of the size it was created with, [(w or 400) // 12] of
    them: the resize event that would lay them out for 640 is held back. *)
Theorem dashboard_startup (w h : Z) (w0 : World) (d : t) (w1 : World) :
  init w h w0 = (Py.Ok d, w1) ->
  current d = Some Main
  /\ MatrixBackground.running (matrix_bg d) = true
  /\ matrix_btn d = "Matrix ON"
  /\ date_btn d = strftime_mdY (datetime_now (clock_reads w0))
  /\ clock_reads w1 = S (clock_reads w0)
  /\ shown d = false
  /\ MatrixBackground.width (matrix_bg d) = 640
  /\ MatrixBackground.height (matrix_bg d) = 480
  /\ MatrixBackground.columns (matrix_bg d)
     = MatrixBackground.columns (fst (MatrixBackground.init w h (gen w0)))
  /\ List.length (MatrixBackground.columns (matrix_bg d))
     = Z.to_nat ((if w =? 0 then 400 else w) / 12)
  /\ gen w1 = snd (MatrixBackground.init w h (gen w0)).
Proof.
  intros Hinit.
  destruct (init_frame w h w0 d w1 Hinit)
    as (Hstack & Hdate & Hbtn & Hbg & Hshown & Hgen & Hclock).
  destruct (before_first_refresh_spec w h w0)
    as (Hbg0 & Hgen0 & Hshown0 & Hbtn0 & Hcur0 & Hdate0 & Hclock0).
  destruct (build_background_spec w h (gen w0))
    as (Hw & Hh & Hcols & Hlen & Hrun & _ & _ & Hg).
  unfold current in *.
  rewrite Hstack, Hdate, Hbtn, Hbg, Hshown, Hgen, Hclock, Hbg0, Hgen0.
  repeat split; assumption.
Qed.

(** X15: the key and the location the dashboard works with are the
    values the key file holds under [api_key] and [location], whatever
    their JSON types; when the key is truthy, start-up sends exactly one
    request, to the address made of the two. *)
Theorem key_file_values_are_used (w h : Z) (w0 : World) (d : t) (w1 : World)
  (f : file) (dd : list (string * Py.pyval)) (k l : Py.pyval) :
  open_ "Wapi.json" = Py.Ok f ->
  json_load f = Py.Ok (Py.PyDict dd) ->
  Py.lookup "api_key" dd = Some k ->
  Py.lookup "location" dd = Some l ->
  init w h w0 = (Py.Ok d, w1) ->
  api_key d = k /\ location d = l
  /\ (Py.truthy k = true ->
      requests w1
      = ("http://api.weatherapi.com/v1/current.json?key=" ++ Py.py_str container_repr k
           ++ "&q=" ++ Py.py_str container_repr l) :: requests w0).
Proof.
  intros Ho Hj Hk Hl Hinit. apply init_returns in Hinit as (s1 & Hrun & -> & ->).
  pose proof (update_weather_frame (before_first_refresh w h w0)) as Hframe.
  cbv zeta in Hframe. rewrite Hrun in Hframe. cbn [snd] in Hframe.
  destruct Hframe as (Hkey & Hloc & _ & _ & _ & _ & _ & _ & Hreq).
  rewrite Hkey, Hloc, Hreq. clear Hkey Hloc Hreq Hrun.
  unfold before_first_refresh, loaded_key.
  destruct (build_background w h (gen w0)) as [m g].
  cbv zeta. rewrite (load_weather_key_file _ f dd k l Ho Hj Hk Hl).
  cbn. split; [reflexivity|]. split; [reflexivity|].
  intros ->. reflexivity.
Qed.

(** X16: a key file whose [api_key] is falsy (an empty string, [null],
    0, [false], an empty list or object) leaves the weather off like a
    missing file does: [__init__] returns, the button reads "No API", the
    detail keeps "Loading…" and no request is sent. *)
Theorem falsy_key_disables_weather (w h : Z) (w0 : World)
  (f : file) (dd : list (string * Py.pyval)) (k l : Py.pyval) :
  open_ "Wapi.json" = Py.Ok f ->
  json_load f = Py.Ok (Py.PyDict dd) ->
  Py.lookup "api_key" dd = Some k ->
  Py.lookup "location" dd = Some l ->
  Py.truthy k = false ->
  exists d w1,
    init w h w0 = (Py.Ok d, w1)
    /\ api_key d = k /\ location d = l
    /\ temp_btn d = "No API" /\ weather_info d = "Loading…"
    /\ requests w1 = requests w0.
Proof.
  intros Ho Hj Hk Hl Hfalsy. rewrite init_eq.
  assert (Hkey : api_key (self (before_first_refresh w h w0)) = k
                 /\ location (self (before_first_refresh w h w0)) = l
                 /\ weather_info (self (before_first_refresh w h w0)) = "Loading…"
                 /\ requests (world (before_first_refresh w h w0)) = requests w0).
  { unfold before_first_refresh, loaded_key.
    destruct (build_background w h (gen w0)) as [m g].
    cbv zeta. rewrite (load_weather_key_file _ f dd k l Ho Hj Hk Hl).
    cbn. repeat split. }
  destruct Hkey as (Hkey & Hloc & Hinfo & Hreq).
  rewrite update_weather_no_key by (rewrite Hkey; exact Hfalsy).
  eexists _, _. split; [reflexivity|]. cbn. repeat split; assumption.
Qed.

(** ** The life of the dashboard *)

Lemma matrix_resize_running (w h : Z) (m : MatrixBackground.t) (g : @rng host_random) :
  MatrixBackground.running (fst (MatrixBackground.resize w h m g))
  = MatrixBackground.running m.
Proof.
  unfold MatrixBackground.resize, MatrixBackground.resizeEvent,
    MatrixBackground.init_columns.
  destruct (MatrixBackground.random_rows _ g) as [cols g']. reflexivity.
Qed.

Lemma matrix_setGeometry_running (b : bool) (w h : Z) (m : MatrixBackground.t)
  (g : @rng host_random) :
  MatrixBackground.running (fst (MatrixBackground.setGeometry b w h m g))
  = MatrixBackground.running m.
Proof.
  unfold MatrixBackground.setGeometry.
  destruct ((w =? _) && (h =? _)); [reflexivity|].
  destruct b; [apply matrix_resize_running | reflexivity].
Qed.

(** What each handler does to the key, the location, the log of
    requests and the button of the background. *)
Lemma handle_facts (e : event) (s : state) :
  let s1 := snd (handle e s) in
  api_key (self s1) = api_key (self s) /\ location (self s1) = location (self s)
  /\ requests (world s1)
     = ((if is_refresh e && Py.truthy (api_key (self s))
         then [weather_url (api_key (self s)) (location (self s))] else [])
          ++ requests (world s))%list
  /\ (fst (handle e s) = Py.Ok tt \/ is_refresh e = true)
  /\ (label_agrees (self s) -> label_agrees (self s1)).
Proof.
  cbv zeta. unfold label_agrees.
  destruct e; cbn [handle is_refresh andb].
  - unfold update_clock. step_monad. cbn. repeat split; auto.
  - pose proof (update_weather_frame s) as Hframe. cbv zeta in Hframe.
    destruct Hframe as (Hkey & Hloc & _ & _ & Hbtn & Hbg & _ & _ & Hreq).
    rewrite Hkey, Hloc, Hreq, Hbtn, Hbg. repeat split; auto.
  - change show_weather with (show WeatherDetail). rewrite show_spec.
    cbn. repeat split; auto.
  - change show_calendar with (show Calendar). rewrite show_spec.
    cbn. repeat split; auto.
  - change show_main with (show Main). rewrite show_spec.
    cbn. repeat split; auto.
  - unfold toggle_matrix. step_monad.
    destruct s as [d wd]. destruct d as [k l st tb db wi mb bg sh].
    destruct bg as [[] cs cols fs bw bh]; cbn; repeat split; auto.
  - unfold matrix_tick. destruct (shown (self s)); [|cbn; repeat split; auto].
    pose proof (paintEvent_attributes (matrix_bg (self s)) (gen (world s))) as Hattr.
    cbv zeta in Hattr.
    destruct (MatrixBackground.paintEvent _ _) as [[m g] ops]. cbn in *.
    destruct Hattr as (Hrun & _). rewrite Hrun. repeat split; auto.
  - unfold resizeEvent.
    pose proof (matrix_setGeometry_running (shown (self s)) w h (matrix_bg (self s))
                  (gen (world s))) as Hrun.
    destruct (MatrixBackground.setGeometry _ _ _ _ _) as [m g]. cbn in *.
    rewrite Hrun. repeat split; auto.
  - unfold showFullScreen. destruct (shown (self s)); [cbn; repeat split; auto|].
    unfold MatrixBackground.resizeEvent, MatrixBackground.init_columns.
    destruct (MatrixBackground.random_rows _ _) as [cols g']. cbn.
    repeat split; auto.
Qed.

(** X17: in every state the dashboard can be in, the button of the
    background reads "Matrix ON" when the background runs and "Matrix OFF"
    when it does not; a click flips both, two clicks give both back. *)
Theorem matrix_button_agrees (w h : Z) (s : state) :
  reachable w h s ->
  label_agrees (self s)
  /\ (let s1 := snd (toggle_matrix s) in
      fst (toggle_matrix s) = Py.Ok tt
      /\ MatrixBackground.running (matrix_bg (self s1))
         = negb (MatrixBackground.running (matrix_bg (self s)))
      /\ label_agrees (self s1)
      /\ matrix_btn (self s1) <> matrix_btn (self s)
      /\ snd (toggle_matrix s1) = s).
Proof.
  intros Hreach.
  assert (Hlabel : label_agrees (self s)).
  { induction Hreach as [w0 d w1 Hinit | s e _ IH].
    - destruct (dashboard_startup_facts w h w0 d w1 Hinit) as (Hrun & Hbtn).
      unfold label_agrees. cbn [self]. rewrite Hrun. exact Hbtn.
    - apply (handle_facts e s), IH. }
  split; [exact Hlabel|]. cbv zeta.
  unfold label_agrees in *. unfold toggle_matrix. step_monad.
  destruct s as [d wd]. destruct d as [k l st tb db wi mb bg sh].
  destruct bg as [run cs cols fs bw bh]. cbn in *. subst mb.
  destruct run; cbn; repeat split; discriminate.
Qed.


(** ** The background inside the dashboard *)






Lemma run_cons (e : event) (rest : list event) (s : state) :
  run (e :: rest) s
  = match handle e s with
    | (Py.Ok _, s1) => run rest s1
    | (Py.Raise x, s1) => (Py.Raise x, s1)
    end.
Proof. reflexivity. Qed.

(** X20: through any run of events the key and the location stay what
    they were, and the only requests sent are those of the weather timer:
    the log grows by copies of the one address made of the key and the
    location, none without a key, at most one per timeout of the weather
    timer, and exactly one per timeout when the run goes through. *)
Theorem requests_come_from_refreshes (evs : list event) (s : state) :
  let s' := snd (run evs s) in
  let url := weather_url (api_key (self s)) (location (self s)) in
  api_key (self s') = api_key (self s)
  /\ location (self s') = location (self s)
  /\ exists k : nat,
      requests (world s') = (repeat url k ++ requests (world s))%list
      /\ (k <= List.length (filter is_refresh evs))%nat
      /\ (Py.truthy (api_key (self s)) = false -> k = 0%nat)
      /\ (Py.truthy (api_key (self s)) = true -> fst (run evs s) = Py.Ok tt ->
          k = List.length (filter is_refresh evs)).
Proof.
  cbv zeta. revert s. induction evs as [|e rest IH]; intros s.
  - cbn. split; [reflexivity|]. split; [reflexivity|].
    exists 0%nat. repeat split; auto.
  - rewrite run_cons.
    pose proof (handle_facts e s) as Hfacts. cbv zeta in Hfacts.
    destruct Hfacts as (Hkey & Hloc & Hreq & Hok & _).
    destruct (handle e s) as [[a|x] s1]; cbn [fst snd] in *.
    + destruct (IH s1) as (IHkey & IHloc & k & IHreq & IHle & IHfalse & IHtrue).
      rewrite Hkey, Hloc in *.
      split; [exact IHkey|]. split; [exact IHloc|].
      cbn [filter]. destruct (is_refresh e); cbn [andb] in Hreq.
      * destruct (Py.truthy (api_key (self s))) eqn:Htruthy.
        -- exists (S k). rewrite IHreq, Hreq.
           split; [rewrite app_assoc, <- repeat_cons; reflexivity|].
           cbn [List.length]. split; [lia|]. split; [discriminate|].
           intros _ Hrun. rewrite (IHtrue eq_refl Hrun). reflexivity.
        -- exists k. rewrite IHreq, Hreq.
           split; [reflexivity|]. cbn [List.length]. split; [lia|].
           split; [exact IHfalse | discriminate].
      * exists k. rewrite IHreq, Hreq.
        split; [reflexivity|]. split; [exact IHle|].
        split; [exact IHfalse | exact IHtrue].
    + destruct Hok as [Hok | Hrefresh]; [discriminate|].
      rewrite Hrefresh in *. cbn [andb] in Hreq.
      split; [exact Hkey|]. split; [exact Hloc|].
      cbn [filter]. rewrite Hrefresh. cbn [List.length].
      destruct (Py.truthy (api_key (self s))).
      * exists 1%nat. rewrite Hreq. split; [reflexivity|]. split; [lia|].
        split; discriminate.
      * exists 0%nat. rewrite Hreq. split; [reflexivity|]. split; [lia|].
        split; [reflexivity | discriminate].
Qed.

End DashboardLife.

(* ================================================================== *)
(** * The theorems at work on the sample hosts *)
(* ================================================================== *)

(** The generator [lcg] honours the contract of [_randbelow]. *)
Lemma lcg_in_range : randbelow_in_range lcg.
Proof. intros n g Hn. cbn. apply Z.mod_pos_bound, Hn. Qed.

(** Three columns at row 0, forty ticks later. *)
Lemma matrix_rows_nonnegative_and_step_witness :
  Forall (fun r => 0 <= r) (MatrixBackground.columns three_columns)
  /\ Forall (fun r => 0 <= r)
       (MatrixBackground.columns (fst (MatrixBackground.ticks (R := lcg) 40 three_columns 7))).
Proof.
  assert (Hstart : Forall (fun r => 0 <= r) (MatrixBackground.columns three_columns))
    by (repeat constructor; cbn; lia).
  split; [exact Hstart|].
  exact (proj1 (matrix_rows_nonnegative_and_step (R := lcg) three_columns 7 40
                  Hstart)).
Defined.

(** A resize to 640 x 480 gives 53 columns. *)
Lemma matrix_resize_columns_witness :
  Z.of_nat (List.length (MatrixBackground.columns
                           (fst (MatrixBackground.resize (R := lcg) 640 480 three_columns 7))))
  = 640 / 12.
Proof.
  refine (proj1 (proj2 (matrix_resize_columns (R := lcg) 640 480 three_columns 7
                          lcg_in_range _)) _); lia.
Defined.

(** C8 as stated fails on a widget of width 0: [self.width() or 400]
    makes it 33 columns, not [0 // 12 = 0]. *)
Lemma matrix_resize_zero_width_counterexample :
  Z.of_nat (List.length (MatrixBackground.columns
                           (fst (MatrixBackground.resize (R := lcg) 0 480 three_columns 7))))
  <> 0 / 12.
Proof. vm_compute. discriminate. Qed.

(** The clock at 03:00:00 on a widget of 400 x 400. *)
Lemma clock_hand_angles_witness :
  AnalogClock.valid_time three_o_clock
  /\ AnalogClock.hands_as_specified 400 400 (fun _ => three_o_clock) 0.
Proof.
  assert (Hvalid : AnalogClock.valid_time three_o_clock)
    by (unfold AnalogClock.valid_time; cbn; lia).
  split; [exact Hvalid|].
  exact (clock_hand_angles 400 400 (fun _ => three_o_clock) 0 Hvalid).
Defined.

(** The model of [repr] against what CPython prints for [0.1], [1/3],
    [100.0], [1e16], [1e-05] and the threshold [0.975] of the background. *)
Example float_repr_samples :
  map Py.float_repr
    [Py.int_truediv 1 10; Py.int_truediv 1 3; Py.float_of_Z 100;
     Py.float_of_Z (10 ^ 16); Py.int_truediv 1 100000; MatrixBackground.threshold]
  = ["0.1"; "0.3333333333333333"; "100.0"; "1e+16"; "1e-05"; "0.975"].
Proof. vm_compute. reflexivity. Qed.

(** At 03:00:00 the three angles are the floats 90.0, 0.0 and 0.0. *)
Example three_o_clock_angles :
  map Py.float_repr
    [AnalogClock.hour_rotation three_o_clock;
     AnalogClock.minute_rotation three_o_clock;
     AnalogClock.second_rotation three_o_clock]
  = ["90.0"; "0.0"; "0.0"].
Proof. vm_compute. reflexivity. Qed.

(** Where the bound of 10^-13 comes from: at 00:31:00 the value of
    [30 * (0 + 31/60)] in binary64, at which the hour hand is painted,
    prints as 15.500000000000002; it lies 2^-49 of a degree from the real
    number 15.5. *)
Example hour_hand_rounding_at_00_31 :
  exists a : spec_float,
    AnalogClock.lines_with (AnalogClock.QPen "#00aaff" 6)
      (fst (AnalogClock.paintEvent 400 400 (fun _ => mk_datetime 2024 5 17 0 31 0) 0))
    = [((AnalogClock.dial_frame 400 400 ++ [AnalogClock.Rotate a])%list, (0, 0, 0, -70))]
    /\ Py.float_repr a = "15.500000000000002"
    /\ ~ (Py.SF2Q a == AnalogClock.spec_hour_angle 0 31)%Q.
Proof.
  exists (S754_finite false 8725724278030337 (-49)).
  split; [vm_compute; reflexivity|].
  split; [vm_compute; reflexivity|].
  vm_compute. discriminate.
Qed.

(** What [__init__] returns is a state the dashboard can be in. *)
Lemma boot_reachable (H : Host) (w h : Z) (w0 : @Dashboard.World H)
  (s : @Dashboard.state H) :
  boot H w h w0 = Some s -> Dashboard.reachable w h s.
Proof.
  unfold boot. destruct (Dashboard.init w h w0) as [[d|e] w1] eqn:Hinit;
    [|discriminate].
  intros [= <-]. apply (Dashboard.reach_init w h w0 d w1 Hinit).
Qed.

(** An answer without [condition] puts "Err" on the button. *)
Lemma weather_failure_shows_error_witness :
  Py.truthy (Py.PyStr "k3y") = true
  /\ Dashboard.temp_btn
       (Dashboard.self (snd (Dashboard.update_weather (keyed no_condition_host 7))))
     = "Err".
Proof.
  split; [reflexivity|].
  refine (proj1 (proj2 (weather_failure_shows_error (keyed no_condition_host 7)
                          eq_refl _))).
  apply (Dashboard.missing_field _
           {| status_code := 200; json := Py.Ok no_condition_body |}
           no_condition_body); reflexivity.
Defined.

(** C1 as stated fails on an answer of status 500 that carries a
    well-formed body: the status is never looked at, and the surfaces
    show the new data. *)
Lemma weather_status_500_counterexample :
  Dashboard.answer (keyed server_error_host 7)
  = Py.Ok {| status_code := 500; json := Py.Ok sunny_body |}
  /\ ~ (200 <= 500 < 300)
  /\ Dashboard.update_weather (keyed server_error_host 7)
     = (Py.Ok tt,
        Dashboard.with_texts "72.5°F"
          ("Temperature: 72.5°F" ++ Dashboard.nl ++ "Condition: Sunny")
          (Dashboard.requested (keyed server_error_host 7)))
  /\ Dashboard.temp_btn
       (Dashboard.self (snd (Dashboard.update_weather (keyed server_error_host 7))))
     <> "Err".
Proof.
  split; [reflexivity|]. split; [lia|].
  rewrite (update_weather_extract (keyed server_error_host 7)
             {| status_code := 500; json := Py.Ok sunny_body |} sunny_body
             eq_refl eq_refl eq_refl).
  change (Dashboard.extract sunny_body)
    with (Py.Ok (Py.PyFloat float_72_5, Py.PyStr "Sunny")).
  cbn [fst snd Dashboard.populated_texts Py.py_str].
  rewrite float_72_5_repr.
  split; [reflexivity|]. cbn. discriminate.
Qed.

(** The sunny answer puts "72.5°F" on the button. *)
Lemma weather_sunny_refresh_witness :
  Py.truthy (Py.PyStr "k3y") = true
  /\ Dashboard.temp_btn
       (Dashboard.self (snd (Dashboard.update_weather (keyed sunny_host 7))))
     = "72.5°F".
Proof.
  split; [reflexivity|].
  exact (proj1 (proj2 (proj2 (proj2
           (weather_sunny_refresh (keyed sunny_host 7)
              {| status_code := 200; json := Py.Ok sunny_body |}
              eq_refl eq_refl eq_refl))))).
Defined.

(** Three refreshes without a key. *)
Lemma no_key_no_request_witness :
  Py.truthy Py.PyNone = false
  /\ Dashboard.refreshes 3 (keyless no_file_host 7)
     = repeat (Py.Ok tt, Dashboard.disabled (keyless no_file_host 7)) 3.
Proof.
  split; [reflexivity|].
  exact (proj1 (no_key_no_request (keyless no_file_host 7) 3 eq_refl)).
Defined.

(** The dashboard started on the sunny host, then sent to its calendar. *)
Lemma show_sets_current_witness :
  exists s,
    boot sunny_host 100 30 (fresh_world sunny_host 7) = Some s
    /\ Dashboard.current (Dashboard.self (snd (Dashboard.show Calendar s)))
       = Some Calendar.
Proof.
  eexists. split; [reflexivity|].
  refine (proj1 (proj2 (proj2 (show_sets_current 100 30 _ Calendar
                                 (boot_reachable sunny_host 100 30
                                    (fresh_world sunny_host 7) _ _))))).
  reflexivity.
Defined.

(** A machine where [Wapi.json] cannot be opened. *)
Lemma config_problem_disables_weather_witness :
  @open_ no_file_host "Wapi.json" = Py.Raise Py.OSError
  /\ Dashboard.load_weather_key (keyless no_file_host 7)
     = (Py.Ok (Py.PyNone, Py.PyNone), keyless no_file_host 7).
Proof.
  split; [reflexivity|].
  exact (proj1 (config_problem_disables_weather 100 30
                  (keyless no_file_host 7) (fresh_world no_file_host 7)
                  (Dashboard.cannot_open (H := no_file_host) Py.OSError eq_refl))).
Defined.

(** A refresh without a key leaves "Loading…" on the detail screen. *)
Lemma no_key_leaves_detail_witness :
  Py.truthy Py.PyNone = false
  /\ Dashboard.weather_info
       (Dashboard.self (snd (Dashboard.update_weather (keyless no_file_host 7))))
     = "Loading…".
Proof.
  split; [reflexivity|].
  exact (proj1 (proj2 (proj2 (no_key_leaves_detail 100 30
                                (keyless no_file_host 7) eq_refl)))).
Defined.

(** A paint of the three columns. *)
Lemma matrix_paint_one_glyph_per_column_witness :
  MatrixBackground.running three_columns = true
  /\ map fst (MatrixBackground.drawn
                (snd (MatrixBackground.paintEvent (R := lcg) three_columns 7)))
     = [(0, 0); (12, 0); (24, 0)].
Proof.
  split; [reflexivity|].
  exact (proj2 (proj2 (proj2 (proj2 (proj2 (proj2 (proj2 (proj2
           (matrix_paint_one_glyph_per_column (R := lcg) three_columns 7
              eq_refl))))))))).
Defined.

(** Three rows at 0 on a widget of height 100: eight ticks later they
    are at 8 (and 7 rows of 12 pixels are still within the height). *)
Lemma matrix_rows_advance_on_screen_witness :
  MatrixBackground.columns
    (fst (MatrixBackground.ticks (R := lcg) 8 three_columns 7)) = [8; 8; 8].
Proof.
  pose proof (matrix_rows_advance_on_screen (R := lcg) three_columns 7 8 eq_refl
                ltac:(cbn; lia) ltac:(repeat constructor; cbn; lia)) as Hadv.
  cbn [MatrixBackground.columns three_columns] in Hadv.
  destruct (MatrixBackground.columns
              (fst (MatrixBackground.ticks (R := lcg) 8 three_columns 7)))
    as [|a [|b [|c [|d rest]]]];
    inversion Hadv as [|? ? ? ? [_ Ha] Hadv1]; subst;
    inversion Hadv1 as [|? ? ? ? [_ Hb] Hadv2]; subst;
    inversion Hadv2 as [|? ? ? ? [_ Hc] Hadv3]; subst;
    inversion Hadv3; subst.
  cbn in Ha, Hb, Hc.
  rewrite Ha, Hb, Hc by lia. reflexivity.
Defined.

(** The glyphs of a paint of the three columns. *)
Lemma matrix_paint_draws_glyphs_witness :
  MatrixBackground.chars three_columns <> []
  /\ Forall (fun xyc => In (snd xyc) ["#"; "$"; "%"])
            (MatrixBackground.drawn
               (snd (MatrixBackground.paintEvent (R := lcg) three_columns 7))).
Proof.
  assert (Hne : MatrixBackground.chars three_columns <> []) by (cbn; discriminate).
  split; [exact Hne|].
  exact (proj1 (matrix_paint_draws_glyphs (R := lcg) three_columns 7 lcg_in_range Hne)).
Defined.

(** A widget created 100 wide, given 640 x 480 while hidden, then
    shown, painted and toggled. *)
Lemma matrix_stays_laid_out_witness :
  MatrixBackground.laid_out
    (MatrixBackground.it
       (fst (MatrixBackground.acts (R := lcg)
               [MatrixBackground.SetGeometry 640 480; MatrixBackground.Show;
                MatrixBackground.Paint; MatrixBackground.Toggle]
               (fst (MatrixBackground.created (R := lcg) 100 30 7))
               (snd (MatrixBackground.created (R := lcg) 100 30 7))))).
Proof.
  exact (proj1 (proj2 (proj2
           (matrix_stays_laid_out (R := lcg) 100 30 7
              [MatrixBackground.SetGeometry 640 480; MatrixBackground.Show;
               MatrixBackground.Paint; MatrixBackground.Toggle] 0 0 lcg_in_range)))
           eq_refl).
Defined.

(** The widget as [__init__] leaves it at size 100 x 30, painted. *)
Lemma matrix_glyphs_within_width_witness :
  Forall (fun xy => 0 <= fst xy /\ fst xy + 12 <= 100 /\ fst xy mod 12 = 0 /\ 0 <= snd xy)
    (map fst (MatrixBackground.drawn
                (snd (MatrixBackground.paintEvent (R := lcg)
                        (fst (MatrixBackground.init (R := lcg) 100 30 7)) 11)))).
Proof.
  refine (matrix_glyphs_within_width (R := lcg)
            (fst (MatrixBackground.init (R := lcg) 100 30 7)) 11 _).
  pose proof (init_columns_laid_out (R := lcg)
                (MatrixBackground.mk true MatrixBackground.glyphs [] 0 100 30) 7
                lcg_in_range eq_refl) as Hinit.
  exact Hinit.
Defined.


(** The answer without [condition] is a failure, and shows as one. *)
Lemma weather_error_iff_failure_witness :
  Py.truthy (Py.PyStr "k3y") = true
  /\ (Dashboard.temp_btn
        (Dashboard.self (snd (Dashboard.update_weather (keyed no_condition_host 7))))
      = "Err"
      <-> Dashboard.fetch_failure (keyed no_condition_host 7)).
Proof.
  split; [reflexivity|].
  exact (proj2 (weather_error_iff_failure (keyed no_condition_host 7) eq_refl eq_refl)).
Defined.

(** The sunny answer on a dashboard that shows "Loading…" and on one
    that shows an error. *)
Lemma weather_labels_from_answer_alone_witness :
  Dashboard.temp_btn
    (Dashboard.self (snd (Dashboard.update_weather (keyed sunny_host 7))))
  = Dashboard.temp_btn
      (Dashboard.self
         (snd (Dashboard.update_weather
                 (Dashboard.with_texts "Err" "Weather load error" (keyed sunny_host 7))))).
Proof.
  exact (proj1 (proj2 (weather_labels_from_answer_alone
                         (keyed sunny_host 7)
                         (Dashboard.with_texts "Err" "Weather load error"
                            (keyed sunny_host 7))
                         eq_refl eq_refl eq_refl eq_refl))).
Defined.

(** A temperature of [null]. *)
Lemma weather_values_unchecked_witness :
  Dashboard.temp_btn
    (Dashboard.self (snd (Dashboard.update_weather (keyed null_temp_host 7))))
  = "None°F".
Proof.
  refine (proj1 (proj2 (proj2 (proj2
            (weather_values_unchecked (keyed null_temp_host 7) _ _ _ _ Py.PyNone _
               eq_refl eq_refl eq_refl eq_refl eq_refl eq_refl eq_refl)))) eq_refl).
Defined.

(** The dashboard started on the sunny host, its background created
    100 wide: 8 columns for its 640 pixels. *)
Lemma dashboard_startup_witness :
  exists d w1,
    Dashboard.init 100 30 (fresh_world sunny_host 7) = (Py.Ok d, w1)
    /\ Dashboard.current d = Some Main
    /\ MatrixBackground.width (Dashboard.matrix_bg d) = 640
    /\ List.length (MatrixBackground.columns (Dashboard.matrix_bg d)) = 8%nat.
Proof.
  eexists _, _. split; [reflexivity|].
  refine ((fun Hs =>
             conj (proj1 Hs)
               (conj (proj1 (proj2 (proj2 (proj2 (proj2 (proj2 (proj2 Hs)))))))
                  (proj1 (proj2 (proj2 (proj2 (proj2 (proj2 (proj2 (proj2 (proj2
                     (proj2 Hs))))))))))))
            (dashboard_startup 100 30 (fresh_world sunny_host 7) _ _ _)).
  reflexivity.
Defined.

Lemma key_file_values_are_used_witness :
  exists d w1,
    Dashboard.init 100 30 (fresh_world sunny_host 7) = (Py.Ok d, w1)
    /\ Dashboard.api_key d = Py.PyStr "k3y".
Proof.
  eexists _, _. split; [reflexivity|].
  refine (proj1 (key_file_values_are_used 100 30 (fresh_world sunny_host 7) _ _
                   key_file _ (Py.PyStr "k3y") (Py.PyStr "Paris")
                   eq_refl eq_refl eq_refl eq_refl _)).
  reflexivity.
Defined.

(** A key file whose key is the empty string. *)
Lemma falsy_key_disables_weather_witness :
  Py.truthy (Py.PyStr "") = false
  /\ exists d w1,
      Dashboard.init 100 30 (fresh_world empty_key_host 7) = (Py.Ok d, w1)
      /\ Dashboard.temp_btn d = "No API".
Proof.
  split; [reflexivity|].
  destruct (falsy_key_disables_weather 100 30 (fresh_world empty_key_host 7)
              empty_key_file _ (Py.PyStr "") (Py.PyStr "Paris")
              eq_refl eq_refl eq_refl eq_refl eq_refl)
    as (d & w1 & Hinit & _ & _ & Hbtn & _).
  exists d, w1. split; assumption.
Defined.

(** The dashboard started on the sunny host, its background toggled. *)
Lemma matrix_button_agrees_witness :
  exists s,
    boot sunny_host 100 30 (fresh_world sunny_host 7) = Some s
    /\ Dashboard.label_agrees (Dashboard.self s).
Proof.
  eexists. split; [reflexivity|].
  refine (proj1 (matrix_button_agrees 100 30 _
                   (boot_reachable sunny_host 100 30 (fresh_world sunny_host 7) _ _))).
  reflexivity.
Defined.

(** 03:20:10 and 15:20:10, two days apart. *)
Lemma clock_picture_from_time_of_day_witness :
  fst (AnalogClock.paintEvent 400 400 (fun _ => mk_datetime 2024 5 17 3 20 10) 0)
  = fst (AnalogClock.paintEvent 400 400 (fun _ => mk_datetime 2024 5 19 15 20 10) 4).
Proof.
  exact (clock_picture_from_time_of_day 400 400
           (fun _ => mk_datetime 2024 5 17 3 20 10)
           (fun _ => mk_datetime 2024 5 19 15 20 10) 0 4 eq_refl eq_refl eq_refl).
Defined.

Lemma clock_hands_in_their_sector_witness :
  AnalogClock.valid_time three_o_clock
  /\ (inject_Z 90 <= Py.SF2Q (AnalogClock.hour_rotation three_o_clock))%Q.
Proof.
  assert (Hvalid : AnalogClock.valid_time three_o_clock)
    by (unfold AnalogClock.valid_time; cbn; lia).
  split; [exact Hvalid|].
  exact (proj1 (proj1 (clock_hands_in_their_sector three_o_clock Hvalid))).
Defined.

(** The clock timer at noon on 17 May 2024. *)
Lemma date_button_spells_the_date_witness :
  Dashboard.date_btn
    (Dashboard.self (snd (Dashboard.update_clock (keyed sunny_host 7))))
  = "05/17/2024"
  /\ Dashboard.read_mdY "05/17/2024" = Some (5, 17, 2024).
Proof.
  split; [reflexivity|].
  exact (proj2 (proj2 (date_button_spells_the_date (keyed sunny_host 7)
                         ltac:(cbn; lia) ltac:(cbn; lia) ltac:(cbn; lia)))).
Defined.


